(** * isbn_search: resolution of ISBN-13 identifiers and record reconciliation

    A shallow embedding of [isbn_search.py].

    Python [str] values are modelled as [string] (sequences of 8-bit
    characters, the UTF-8 text).  The text operations the program uses
    ([lower], [strip], [split], [isdigit], the regular expression [\d{4}],
    [in]) are modelled on the ASCII range: characters above 127 are kept as
    they are, are never white space and never digits, and [String.length]
    counts bytes.  On ASCII text the model is exact; outside ASCII Python
    lowercases further letters, strips and splits on further white space,
    takes further characters for digits and counts a character of several
    bytes once.  A spreadsheet cell is an [option string]:
    [None] is a null cell ([pd.isnull]), [Some s] a cell whose [str(...)] is
    [s].

    The network is a deterministic server, a function from the list of URLs
    requested so far and the URL requested now to a response; the program
    threads the list of requested URLs (the request log) through every call,
    so that "no network call" is "the log is unchanged".  The request headers
    (the credentials of [st.secrets]) and the pauses of [time.sleep] have no
    part in what is returned and are left out. *)

From Stdlib Require Import String Ascii List Bool Lia.
From stdpp Require Import gmap strings list.

Open Scope string_scope.
Open Scope nat_scope.
Open Scope list_scope.

(** ** Python string operations *)

Module Py.

Definition is_space (c : ascii) : bool :=
  let n := nat_of_ascii c in
  ((9 <=? n) && (n <=? 13)) || ((28 <=? n) && (n <=? 32)).

Definition is_digit (c : ascii) : bool :=
  let n := nat_of_ascii c in (48 <=? n) && (n <=? 57).

Definition lower_char (c : ascii) : ascii :=
  let n := nat_of_ascii c in
  if (65 <=? n) && (n <=? 90) then ascii_of_nat (n + 32) else c.

(** [s.lower()] *)
Fixpoint lower (s : string) : string :=
  match s with
  | EmptyString => EmptyString
  | String c s' => String (lower_char c) (lower s')
  end.

Fixpoint lstrip (s : string) : string :=
  match s with
  | EmptyString => EmptyString
  | String c s' => if is_space c then lstrip s' else s
  end.

Fixpoint rstrip (s : string) : string :=
  match s with
  | EmptyString => EmptyString
  | String c s' =>
      match rstrip s' with
      | EmptyString => if is_space c then EmptyString else String c EmptyString
      | r => String c r
      end
  end.

(** [s.strip()] *)
Definition strip (s : string) : string := rstrip (lstrip s).

(** [needle in hay] *)
Fixpoint contains (needle hay : string) : bool :=
  String.prefix needle hay ||
  match hay with
  | EmptyString => false
  | String _ hay' => contains needle hay'
  end.

(** [s.replace(pat, '')] for a non-empty [pat]: occurrences are removed from
    left to right without overlap; [skip] counts the characters of the
    occurrence being removed that are still to be dropped. *)
Fixpoint remove_from (pat : string) (skip : nat) (s : string) : string :=
  match s with
  | EmptyString => EmptyString
  | String c s' =>
      match skip with
      | S k => remove_from pat k s'
      | O =>
          if String.prefix pat s
          then remove_from pat (Nat.pred (String.length pat)) s'
          else String c (remove_from pat 0 s')
      end
  end.

Definition remove (pat s : string) : string := remove_from pat 0 s.

(** [s.split()]: the maximal runs of characters that are not white space.
    [cur] is the token being read, in reverse. *)
Fixpoint split_from (cur : list ascii) (s : string) : list string :=
  let flush (k : list string) :=
    match cur with
    | [] => k
    | _ => string_of_list_ascii (rev cur) :: k
    end in
  match s with
  | EmptyString => flush []
  | String c s' =>
      if is_space c then flush (split_from [] s')
      else split_from (c :: cur) s'
  end.

Definition split (s : string) : list string := split_from [] s.

Fixpoint all_digits (s : string) : bool :=
  match s with
  | EmptyString => true
  | String c s' => is_digit c && all_digits s'
  end.

(** [s.isdigit()]: false on the empty string. *)
Definition isdigit (s : string) : bool :=
  match s with
  | EmptyString => false
  | _ => all_digits s
  end.

(** Truth value of a string: only the empty string is false. *)
Definition truthy (s : string) : bool :=
  match s with
  | EmptyString => false
  | _ => true
  end.

(** [re.search(r'\d{4}', s)]: the leftmost four consecutive digits. *)
Fixpoint search_d4 (s : string) : option string :=
  match s with
  | String a ((String b (String c (String d _))) as s') =>
      if is_digit a && is_digit b && is_digit c && is_digit d
      then Some (String a (String b (String c (String d EmptyString))))
      else search_d4 s'
  | String _ s' => search_d4 s'
  | EmptyString => None
  end.

Definition hex_digit (n : nat) : ascii :=
  if n <? 10 then ascii_of_nat (48 + n) else ascii_of_nat (55 + n).

Definition is_unreserved (c : ascii) : bool :=
  let n := nat_of_ascii c in
  ((65 <=? n) && (n <=? 90)) || ((97 <=? n) && (n <=? 122)) || is_digit c
  || (n =? 95) || (n =? 46) || (n =? 45) || (n =? 126) || (n =? 47).

(** [urllib.parse.quote(s)] with its default [safe='/']. *)
Fixpoint quote (s : string) : string :=
  match s with
  | EmptyString => EmptyString
  | String c s' =>
      if is_unreserved c then String c (quote s')
      else
        let n := nat_of_ascii c in
        String "%"%char (String (hex_digit (n / 16)) (String (hex_digit (n mod 16)) (quote s')))
  end.

End Py.

(** ** Year and identifier extraction *)

(** [extract_year(pubdate)] *)
Definition extract_year (pubdate : option string) : string :=
  match pubdate with
  | None => ""
  | Some s =>
      match Py.search_d4 (Py.strip s) with
      | Some m => m
      | None => ""
      end
  end.

(** [extract_isbn13(isbn_str)] *)
Definition extract_isbn13 (isbn_str : string) : option string :=
  if negb (Py.truthy isbn_str) then None
  else List.find (fun p => (String.length p =? 13) && Py.isdigit p) (Py.split isbn_str).

(** ** The search service *)

(** One element of the [items] array of a response; a field is [''] when the
    key is absent ([item.get(key, '')]). *)
Record Item := mkItem {
  title : string;
  author : string;
  publisher : string;
  pubdate : string;
  price : string;
  isbn : string
}.

(** What [requests.get] gives: a response with its status code and the
    [items] of its body ([data.get('items', [])]), or a raised
    [requests.exceptions.RequestException]. *)
Inductive Response :=
| Http (status_code : nat) (items : list Item)
| RequestException.

Definition Server := list string -> string -> Response.

Definition url : string := "https://openapi.naver.com/v1/search/book.json".

(** How a [while retries < max_retries] loop of the resolver is left:
    by a [return], or towards the next query of the [for] loop (by [break] or
    because the condition became false). *)
Inductive LoopExit :=
| Returned (isbn13 : option string)
| NextQuery.

(** The condition of lines 117-120, with the item's fields prepared as in
    lines 111-114. *)
Definition item_matches (title_ author_ publisher_ pub_year : string) (item : Item) : bool :=
  let item_title := Py.lower (Py.strip (Py.remove "</b>" (Py.remove "<b>" (title item)))) in
  let item_author := Py.lower (Py.strip (author item)) in
  let item_publisher := Py.lower (Py.strip (publisher item)) in
  let item_pub_year := extract_year (Some (Py.strip (pubdate item))) in
  Py.contains (Py.lower title_) item_title
  && Py.contains (Py.lower author_) item_author
  && Py.contains (Py.lower publisher_) item_publisher
  && String.eqb pub_year item_pub_year.

(** The [for item in items] loop: [Some isbn13] when it is left by
    [return isbn13], [None] when it runs to its end. *)
Fixpoint scan_items (title_ author_ publisher_ pub_year : string) (items : list Item)
  : option string :=
  match items with
  | [] => None
  | item :: rest =>
      if item_matches title_ author_ publisher_ pub_year item then
        match extract_isbn13 (isbn item) with
        | Some isbn13 =>
            if Py.truthy isbn13 then Some isbn13
            else scan_items title_ author_ publisher_ pub_year rest
        | None => scan_items title_ author_ publisher_ pub_year rest
        end
      else scan_items title_ author_ publisher_ pub_year rest
  end.

Definition query_combinations (title_ author_ publisher_ pub_year : string) : list string :=
  [ title_ +:+ " " +:+ author_ +:+ " " +:+ publisher_ +:+ " " +:+ pub_year;
    title_ +:+ " " +:+ author_;
    title_ +:+ " " +:+ publisher_;
    title_ ].

Definition search_url (query : string) : string :=
  url +:+ "?query=" +:+ Py.quote query +:+ "&display=5".

(** A lookup by identifier returns the first item in this form. *)
Record BookInfo := mkBookInfo {
  bi_title : string;
  bi_author : string;
  bi_publisher : string;
  bi_pubdate : string;
  bi_price : string;
  bi_isbn : string
}.

Definition book_info_of_item (item : Item) : BookInfo :=
  {| bi_title := Py.strip (Py.remove "</b>" (Py.remove "<b>" (title item)));
     bi_author := Py.strip (author item);
     bi_publisher := Py.strip (publisher item);
     bi_pubdate := Py.strip (pubdate item);
     bi_price := Py.strip (price item);
     bi_isbn := Py.strip (isbn item) |}.

Definition isbn_url (isbn13 : string) : string :=
  url +:+ "?query=" +:+ Py.quote isbn13 +:+ "&display=1".

Section Lookup.

Variable server : Server.

(** [requests.get(full_url, headers=headers)]: the request is appended to
    the log. *)
Definition requests_get (log : list string) (full_url : string)
  : Response * list string :=
  (server log full_url, log ++ [full_url]).

(** The [while retries < max_retries] loop of
    [get_isbn13_from_title_author_pub]; [remaining] is
    [max_retries - retries]. *)
Fixpoint query_loop (title_ author_ publisher_ pub_year full_url : string)
    (remaining : nat) (log : list string) : LoopExit * list string :=
  match remaining with
  | O => (NextQuery, log)
  | S remaining' =>
      let (response, log') := requests_get log full_url in
      match response with
      | Http status_code items =>
          if status_code =? 200 then
            match items with
            | first_item :: _ =>
                match scan_items title_ author_ publisher_ pub_year items with
                | Some isbn13 => (Returned (Some isbn13), log')
                | None => (Returned (extract_isbn13 (isbn first_item)), log')
                end
            | [] => (NextQuery, log')
            end
          else if status_code =? 429 then
            query_loop title_ author_ publisher_ pub_year full_url remaining' log'
          else (Returned None, log')
      | RequestException => (Returned None, log')
      end
  end.

(** The [for query in query_combinations] loop and the final
    [return None]. *)
Fixpoint cascade (title_ author_ publisher_ pub_year : string) (max_retries : nat)
    (queries : list string) (log : list string) : option string * list string :=
  match queries with
  | [] => (None, log)
  | query :: rest =>
      match query_loop title_ author_ publisher_ pub_year (search_url query)
              max_retries log with
      | (Returned isbn13, log') => (isbn13, log')
      | (NextQuery, log') =>
          cascade title_ author_ publisher_ pub_year max_retries rest log'
      end
  end.

(** [get_isbn13_from_title_author_pub(title, author, publisher, pub_year,
    max_retries)] *)
Definition get_isbn13_from_title_author_pub
    (title_ author_ publisher_ pub_year : string) (max_retries : nat)
    (log : list string) : option string * list string :=
  cascade title_ author_ publisher_ pub_year max_retries
    (query_combinations title_ author_ publisher_ pub_year) log.

(** The [while retries < max_retries] loop of [get_book_info_by_isbn13]
    and the [return None] after it. *)
Fixpoint book_info_loop (full_url : string) (remaining : nat) (log : list string)
  : option BookInfo * list string :=
  match remaining with
  | O => (None, log)
  | S remaining' =>
      let (response, log') := requests_get log full_url in
      match response with
      | Http status_code items =>
          if status_code =? 200 then
            match items with
            | item :: _ => (Some (book_info_of_item item), log')
            | [] => (None, log')
            end
          else if status_code =? 429 then book_info_loop full_url remaining' log'
          else (None, log')
      | RequestException => (None, log')
      end
  end.

(** The body of [get_book_info_by_isbn13(isbn13, max_retries)]. *)
Definition get_book_info_by_isbn13_body (isbn13 : string) (max_retries : nat)
    (log : list string) : option BookInfo * list string :=
  book_info_loop (isbn_url isbn13) max_retries log.

End Lookup.

Definition default_max_retries : nat := 5.

(** ** Spreadsheet cells *)

(** [str(cell).strip() if not pd.isnull(cell) else ''] *)
Definition cell_text (cell : option string) : string :=
  match cell with
  | None => ""
  | Some s => Py.strip s
  end.

(** Truth value of an optional string: [None] and [''] are false. *)
Definition truthy_opt (v : option string) : bool :=
  match v with
  | None => false
  | Some s => Py.truthy s
  end.

(** [','.join(l)] *)
Fixpoint join (sep : string) (l : list string) : string :=
  match l with
  | [] => ""
  | [x] => x
  | x :: rest => x +:+ sep +:+ join sep rest
  end.

(** ** Feature 1: the convert workflow *)

(** A row of the input table; the columns are 도서명, 저자, 출판사, 출간연도
    and ISBN. *)
Record Row1 := mkRow1 {
  col1_title : option string;
  col1_author : option string;
  col1_publisher : option string;
  col1_pub_year : option string;
  col1_isbn : option string
}.

Abbreviation CacheKey := (string * string * string * string)%type.

(** The state of one run: the dictionary [isbn_cache], the request log, and
    (ghost) the keys the resolver was called for, in order. *)
Record Run1 := mkRun1 {
  isbn_cache : gmap CacheKey (option string);
  log1 : list string;
  resolved : list CacheKey
}.

Definition no_title : string := "도서명 없음".
Definition no_info : string := "정보 없음".

(** Lines 199-202: the value written to the ISBN column for a resolver
    outcome. *)
Definition isbn_cell (isbn13 : option string) : string :=
  match isbn13 with
  | Some i => if Py.truthy i then i else no_info
  | None => no_info
  end.

Definition cache_key_of (row : Row1) : CacheKey :=
  (cell_text (col1_title row), cell_text (col1_author row),
   cell_text (col1_publisher row), extract_year (col1_pub_year row)).

(** The body of the [for idx, row in df.iterrows()] loop of [run_feature_1]:
    the value written to the ISBN column of the row, and the new state. *)
Definition feature_1_row (server : Server) (st : Run1) (row : Row1) : string * Run1 :=
  let title_ := cell_text (col1_title row) in
  let author_ := cell_text (col1_author row) in
  let publisher_ := cell_text (col1_publisher row) in
  let year := extract_year (col1_pub_year row) in
  if negb (Py.truthy title_) then (no_title, st)
  else
    let cache_key := (title_, author_, publisher_, year) in
    let '(isbn13, st') :=
      match isbn_cache st !! cache_key with
      | Some isbn13 => (isbn13, st)
      | None =>
          let (isbn13, log') :=
            get_isbn13_from_title_author_pub server title_ author_ publisher_ year
              default_max_retries (log1 st) in
          (isbn13,
           {| isbn_cache := <[cache_key := isbn13]> (isbn_cache st);
              log1 := log';
              resolved := resolved st ++ [cache_key] |})
      end in
    (isbn_cell isbn13, st').

Fixpoint feature_1_rows (server : Server) (st : Run1) (rows : list Row1)
  : list string * Run1 :=
  match rows with
  | [] => ([], st)
  | row :: rest =>
      let (out, st') := feature_1_row server st row in
      let (outs, st'') := feature_1_rows server st' rest in
      (out :: outs, st'')
  end.

(** [run_feature_1] on the rows of the uploaded table: the new ISBN column and
    the final state.  The cache starts empty at every run. *)
Definition run_feature_1 (server : Server) (log : list string) (rows : list Row1)
  : list string * Run1 :=
  feature_1_rows server {| isbn_cache := ∅; log1 := log; resolved := [] |} rows.

(** ** Feature 2: the verify workflow *)

(** A row of the input table; the columns are ISBN10, ISBN13, 도서명, 출간일,
    출판사, 저자 and 정가. *)
Record Row2 := mkRow2 {
  col2_isbn10 : option string;
  col2_isbn13 : option string;
  col2_title : option string;
  col2_pubdate : option string;
  col2_publisher : option string;
  col2_author : option string;
  col2_price : option string
}.

(** The state of the verify workflow: the memo table that [@st.cache_data]
    keeps for [get_book_info_by_isbn13], and the request log. *)
Record Run2 := mkRun2 {
  book_cache : gmap string (option BookInfo);
  log2 : list string
}.

(** [get_book_info_by_isbn13(isbn13)] as the workflow calls it: through the
    memo table of [@st.cache_data], with the default [max_retries]. *)
Definition get_book_info_by_isbn13 (server : Server) (st : Run2) (isbn13 : string)
  : option BookInfo * Run2 :=
  match book_cache st !! isbn13 with
  | Some book_info => (book_info, st)
  | None =>
      let (book_info, log') :=
        get_book_info_by_isbn13_body server isbn13 default_max_retries (log2 st) in
      (book_info,
       {| book_cache := <[isbn13 := book_info]> (book_cache st); log2 := log' |})
  end.

Definition label_title : string := "도서명".
Definition label_author : string := "저자".
Definition label_publisher : string := "출판사".
Definition label_year : string := "출간연도".
Definition label_price : string := "정가".

Definition verdict_cannot_search : string := "검색 불가(ISBN13 없음)".
Definition verdict_search_failed : string := "검색 실패".
Definition verdict_match : string := "일치".
Definition verdict_mismatch : string := "불일치".
Definition note_no_isbn13 : string := "ISBN13 미입력".
Definition note_no_result : string := "검색 결과 없음".

(** Lines 266-292: the list [mismatch_list] for the original fields (already
    stripped) and the fetched record. *)
Definition mismatch_list_of
    (original_title original_author original_publisher original_price
       original_pubdate : string) (book_info : BookInfo) : list string :=
  let api_title := Py.lower (bi_title book_info) in
  let api_author := Py.lower (bi_author book_info) in
  let api_publisher := Py.lower (bi_publisher book_info) in
  let api_price := bi_price book_info in
  let api_pubdate := extract_year (Some (bi_pubdate book_info)) in
  let o_title := Py.lower original_title in
  let o_author := Py.lower original_author in
  let o_publisher := Py.lower original_publisher in
  let o_price := original_price in
  let o_pubdate := extract_year (Some original_pubdate) in
  let mismatch_list := [] in
  let mismatch_list :=
    if Py.truthy o_title
       && (negb (Py.contains o_title api_title) && negb (Py.contains api_title o_title))
    then mismatch_list ++ [label_title] else mismatch_list in
  let mismatch_list :=
    if Py.truthy o_author
       && (negb (Py.contains o_author api_author) && negb (Py.contains api_author o_author))
    then mismatch_list ++ [label_author] else mismatch_list in
  let mismatch_list :=
    if Py.truthy o_publisher
       && (negb (Py.contains o_publisher api_publisher)
           && negb (Py.contains api_publisher o_publisher))
    then mismatch_list ++ [label_publisher] else mismatch_list in
  let mismatch_list :=
    if Py.truthy o_pubdate && negb (String.eqb o_pubdate api_pubdate)
    then mismatch_list ++ [label_year] else mismatch_list in
  let mismatch_list :=
    if Py.truthy o_price && negb (String.eqb o_price api_price)
    then mismatch_list ++ [label_price] else mismatch_list in
  mismatch_list.

(** Lines 294-298: the cells 일치여부 and 불일치_항목 of the row; the second
    keeps its initial [''] on a match. *)
Definition verdict_of (mismatch_list : list string) : string * string :=
  if length mismatch_list =? 0 then (verdict_match, "")
  else (verdict_mismatch, join "," mismatch_list).

(** The body of the [for idx, row in df.iterrows()] loop of [run_feature_2]:
    the cells 일치여부 and 불일치_항목 written for the row, and the new
    state. *)
Definition feature_2_row (server : Server) (st : Run2) (row : Row2)
  : (string * string) * Run2 :=
  let original_isbn10 := cell_text (col2_isbn10 row) in
  let original_isbn13 := cell_text (col2_isbn13 row) in
  let original_title := cell_text (col2_title row) in
  let original_author := cell_text (col2_author row) in
  let original_publisher := cell_text (col2_publisher row) in
  let original_price := cell_text (col2_price row) in
  let original_pubdate := cell_text (col2_pubdate row) in
  if negb (Py.truthy original_isbn13) || (String.length original_isbn13 <? 13)
  then ((verdict_cannot_search, note_no_isbn13), st)
  else
    let (book_info, st') := get_book_info_by_isbn13 server st original_isbn13 in
    match book_info with
    | None => ((verdict_search_failed, note_no_result), st')
    | Some book_info =>
        (verdict_of
           (mismatch_list_of original_title original_author original_publisher
              original_price original_pubdate book_info), st')
    end.

Fixpoint feature_2_rows (server : Server) (st : Run2) (rows : list Row2)
  : list (string * string) * Run2 :=
  match rows with
  | [] => ([], st)
  | row :: rest =>
      let (out, st') := feature_2_row server st row in
      let (outs, st'') := feature_2_rows server st' rest in
      (out :: outs, st'')
  end.

(** [run_feature_2] on the rows of the uploaded table. *)
Definition run_feature_2 (server : Server) (st : Run2) (rows : list Row2)
  : list (string * string) * Run2 :=
  feature_2_rows server st rows.

(** ** Notions used to state the properties *)

(** [w] is a window of four decimal digits. *)
Definition window4 (w : string) : Prop :=
  String.length w = 4 /\ Py.all_digits w = true.

(** [s] has a window of four digits at offset [String.length pre]. *)
Definition window4_at (s pre w : string) : Prop :=
  window4 w /\ exists post, s = pre +:+ w +:+ post.

(** The four digits [s] starts with, if it does. *)
Definition starts_d4 (s : string) : option string :=
  match s with
  | String a (String b (String c (String d _))) =>
      if Py.is_digit a && Py.is_digit b && Py.is_digit c && Py.is_digit d
      then Some (String a (String b (String c (String d EmptyString))))
      else None
  | _ => None
  end.

Fixpoint all_space (s : string) : bool :=
  match s with
  | EmptyString => true
  | String c s' => Py.is_space c && all_space s'
  end.

(** The maximal runs of decimal digits of a string, from left to right;
    [cur] is the run being read, in reverse. *)
Fixpoint digit_runs (cur : list ascii) (s : string) : list string :=
  let flush (k : list string) :=
    match cur with
    | [] => k
    | _ => string_of_list_ascii (rev cur) :: k
    end in
  match s with
  | EmptyString => flush []
  | String c s' =>
      if Py.is_digit c then digit_runs (c :: cur) s'
      else flush (digit_runs [] s')
  end.

(** The year extractor as the specification words it: the first contiguous
    run of exactly four decimal digits, the empty string when there is none
    or the input is absent. *)
Definition spec_extract_year (pubdate : option string) : string :=
  match pubdate with
  | None => ""
  | Some s =>
      match List.find (fun r => String.length r =? 4) (digit_runs [] s) with
      | Some r => r
      | None => ""
      end
  end.

(** Containment in either direction. *)
Definition contains_either (a b : string) : bool :=
  Py.contains a b || Py.contains b a.

(** The item's fields as the matcher compares them (lines 111-114). *)
Definition item_title (item : Item) : string :=
  Py.lower (Py.strip (Py.remove "</b>" (Py.remove "<b>" (title item)))).
Definition item_author (item : Item) : string := Py.lower (Py.strip (author item)).
Definition item_publisher (item : Item) : string := Py.lower (Py.strip (publisher item)).
Definition item_pub_year (item : Item) : string :=
  extract_year (Some (Py.strip (pubdate item))).

(** The candidate matcher as the specification words it: containment in
    either direction for title, author and publisher, the last two skipped
    when the wanted field is empty; equality of years, skipped when the wanted
    year is empty. *)
Definition spec_item_matches (title_ author_ publisher_ pub_year : string) (item : Item)
  : bool :=
  contains_either (Py.lower title_) (item_title item)
  && (negb (Py.truthy author_) || contains_either (Py.lower author_) (item_author item))
  && (negb (Py.truthy publisher_)
      || contains_either (Py.lower publisher_) (item_publisher item))
  && (negb (Py.truthy pub_year) || String.eqb pub_year (item_pub_year item)).

(** [needle] occurs in [hay]. *)
Definition substring_of (needle hay : string) : Prop :=
  exists pre post, hay = pre +:+ needle +:+ post.

(** The server answers the next [r] requests for [u] with status 429. *)
Fixpoint throttled (server : Server) (log : list string) (u : string) (r : nat) : bool :=
  match r with
  | O => true
  | S r' =>
      match server log u with
      | Http status_code _ => (status_code =? 429) && throttled server (log ++ [u]) u r'
      | RequestException => false
      end
  end.

(** The item matches and an identifier can be extracted from it. *)
Definition usable (title_ author_ publisher_ pub_year : string) (item : Item) : bool :=
  item_matches title_ author_ publisher_ pub_year item
  && truthy_opt (extract_isbn13 (isbn item)).

(** What the specification returns for a non-empty result: the extraction of
    the first item that matches, or of the first item when none matches. *)
Definition spec_pick (title_ author_ publisher_ pub_year : string) (items : list Item)
  : option string :=
  match List.find (item_matches title_ author_ publisher_ pub_year) items with
  | Some item => extract_isbn13 (isbn item)
  | None =>
      match items with
      | first_item :: _ => extract_isbn13 (isbn first_item)
      | [] => None
      end
  end.

Definition wanted_longer : Item := mkItem "Foo" "" "" "" "" "".
Definition dated_item : Item := mkItem "Foo" "" "" "20210301" "" "".
Definition item_without_isbn : Item := mkItem "Foo" "" "" "" "" "".
Definition item_with_isbn : Item := mkItem "Foo <b>2</b>" "" "" "" "" "8901234567 9788901234567".
Definition other_item : Item := mkItem "Bar" "" "" "" "" "9791234567890".

Definition always (response : Response) : Server := fun _ _ => response.

(** A server with one book, found by title and author only. *)
Definition title_author_server : Server :=
  fun _ full_url =>
    if String.eqb full_url (search_url "Foo Kim")
    then Http 200 [mkItem "<b>Foo</b>" "Kim" "Pub" "20210301" "10000" "8901234567 9788901234567"]
    else Http 200 [].

(** The resolver was called at most once for every key, and every key it was
    called for is in the cache. *)
Definition run1_inv (st : Run1) : Prop :=
  NoDup (resolved st) /\ forall k, In k (resolved st) -> is_Some (isbn_cache st !! k).

Definition row_a : Row1 := mkRow1 (Some " Foo ") None None (Some "2021-03-01") None.
Definition row_b : Row1 := mkRow1 (Some "Foo") (Some " ") None (Some "2021") (Some "x").

(** The five compared fields in the order of lines 281-292, each with its
    flag: a field is flagged when the original value is not empty and differs
    from the fetched one, by containment in either direction for title, author
    and publisher, by equality for the year and the price. *)
Definition compared_fields
    (original_title original_author original_publisher original_price
       original_pubdate : string) (book_info : BookInfo) : list (string * bool) :=
  [ (label_title,
     Py.truthy (Py.lower original_title)
     && negb (contains_either (Py.lower original_title) (Py.lower (bi_title book_info))));
    (label_author,
     Py.truthy (Py.lower original_author)
     && negb (contains_either (Py.lower original_author) (Py.lower (bi_author book_info))));
    (label_publisher,
     Py.truthy (Py.lower original_publisher)
     && negb (contains_either (Py.lower original_publisher)
                (Py.lower (bi_publisher book_info))));
    (label_year,
     Py.truthy (extract_year (Some original_pubdate))
     && negb (String.eqb (extract_year (Some original_pubdate))
                (extract_year (Some (bi_pubdate book_info)))));
    (label_price,
     Py.truthy original_price && negb (String.eqb original_price (bi_price book_info))) ].

(** Two rows of the verify workflow that agree on every column but ISBN10. *)
Definition same_except_isbn10 (row row' : Row2) : Prop :=
  col2_isbn13 row = col2_isbn13 row'
  /\ col2_title row = col2_title row'
  /\ col2_pubdate row = col2_pubdate row'
  /\ col2_publisher row = col2_publisher row'
  /\ col2_author row = col2_author row'
  /\ col2_price row = col2_price row'.

Definition fresh : Run2 := {| book_cache := ∅; log2 := [] |}.

Definition row_short : Row2 :=
  mkRow2 None (Some "123") (Some "Foo") None None None None.
Definition row_foo : Row2 :=
  mkRow2 None (Some "9788901234567") (Some "Foo") None None None (Some "10000").
Definition row_foo' : Row2 :=
  mkRow2 (Some "8901234567") (Some "9788901234567") (Some "Foo") None None None
    (Some "10000").
Definition item_foo_bar : Item := mkItem "Foo Bar" "" "" "" "12000" "".

(** ** Notions used for the further properties *)



(** An ISBN-13 as the extractor accepts it. *)
Definition is_isbn13 (p : string) : bool := (String.length p =? 13) && Py.isdigit p.

(** A resolver outcome: absence, or thirteen decimal digits. *)
Definition isbn13_or_none (v : option string) : Prop :=
  match v with
  | None => True
  | Some p => String.length p = 13 /\ Py.all_digits p = true
  end.

(** A response that makes a lookup give up at once: a raised exception or a
    status other than 200 and 429. *)
Definition hard_failure (response : Response) : bool :=
  match response with
  | Http status_code _ => negb (status_code =? 200) && negb (status_code =? 429)
  | RequestException => true
  end.


Definition failing_server : Server := always (Http 500 []).
Definition busy_server : Server := always (Http 429 []).

Definition padded_item : Item :=
  mkItem " <b>Foo</b> Bar " " Kim " "Pub " " 20210301" " 12000 " " 8901234567 9788901234567 ".

(** Every value of the cache is a resolver outcome. *)
Definition cache_wf (st : Run1) : Prop :=
  forall k v, isbn_cache st !! k = Some v -> isbn13_or_none v.

(** A well-formed cell of the ISBN column written by the convert workflow. *)
Definition isbn_cell_wf (out : string) : Prop :=
  out = no_title \/ out = no_info \/ (String.length out = 13 /\ Py.all_digits out = true).

Definition row_blank : Row1 := mkRow1 (Some "   ") (Some "Kim") None None None.
Definition row_padded : Row1 :=
  mkRow1 (Some ("  " +:+ "Foo" +:+ " ")) (Some (" " +:+ "Kim" +:+ "")) (Some ("" +:+ "Pub" +:+ "  "))
    (Some "2021") None.
Definition row_plain : Row1 :=
  mkRow1 (Some "Foo") (Some "Kim") (Some "Pub") (Some "2021") (Some "x").

(** A response after which a lookup by identifier has no record to return
    and stops: a hard failure, or status 200 with an empty list of items. *)
Definition no_result (response : Response) : bool :=
  match response with
  | Http status_code items =>
      if status_code =? 200 then
        match items with
        | [] => true
        | _ => false
        end
      else negb (status_code =? 429)
  | RequestException => true
  end.

(** ** The pages of the two workflows, from the upload on *)

(** What a page shows after the upload step. *)
Inductive PageResult (A : Type) :=
| NothingUploaded
| MissingColumn (message : string)
| Completed (result : A).

Arguments NothingUploaded {A}.
Arguments MissingColumn {A} message.
Arguments Completed {A} result.

Definition required_columns_1 : list string :=
  ["도서명"; "저자"; "출판사"; "출간연도"; "ISBN"].

Definition required_columns_2 : list string :=
  ["ISBN10"; "ISBN13"; "도서명"; "출간일"; "출판사"; "저자"; "정가"].

(** The [for col in required_columns] loop: the first required column that
    is not a column of the table. *)
Definition first_missing (required_columns columns : list string) : option string :=
  List.find (fun col => negb (existsb (String.eqb col) columns)) required_columns.

Definition missing_message (col : string) : string :=
  "필수 열이 누락되었습니다: " +:+ col.

(** [run_feature_1()] from the upload on: [uploaded] is [None] when no file
    was uploaded, else the columns and the rows of the table read from it (the
    cells of an absent column are never read). *)
Definition feature_1_page (server : Server) (log : list string)
    (uploaded : option (list string * list Row1))
  : PageResult (list string) * list string :=
  match uploaded with
  | None => (NothingUploaded, log)
  | Some (columns, rows) =>
      match first_missing required_columns_1 columns with
      | Some col => (MissingColumn (missing_message col), log)
      | None =>
          let (outs, st) := run_feature_1 server log rows in
          (Completed outs, log1 st)
      end
  end.

(** [run_feature_2()] from the upload on. *)
Definition feature_2_page (server : Server) (st : Run2)
    (uploaded : option (list string * list Row2))
  : PageResult (list (string * string)) * Run2 :=
  match uploaded with
  | None => (NothingUploaded, st)
  | Some (columns, rows) =>
      match first_missing required_columns_2 columns with
      | Some col => (MissingColumn (missing_message col), st)
      | None =>
          let (outs, st') := run_feature_2 server st rows in
          (Completed outs, st')
      end
  end.

Definition row_same_isbn13 : Row2 :=
  mkRow2 None (Some " 9788901234567 ") (Some "Quux") None None None None.
Definition matching_row : Row2 :=
  mkRow2 None (Some "9788901234567") (Some "FOO bar") (Some "2021-03-01") (Some "pub")
    (Some "KIM") (Some "12000").

(** A character that may stand in the query part of a URL as it is, or the
    percent sign of an escape. *)
Definition url_char (c : ascii) : bool := Py.is_unreserved c || Ascii.eqb c "%".

Fixpoint url_safe (s : string) : bool :=
  match s with
  | EmptyString => true
  | String c s' => url_char c && url_safe s'
  end.

(** ** Notions used for the revised statements *)

(** Every value of the cache was put there by a call of the resolver. *)
Definition cache_resolved (st : Run1) : Prop :=
  forall k, is_Some (isbn_cache st !! k) -> In k (resolved st).

(** The labels of the five compared fields. *)
Definition field_labels : list string :=
  [label_title; label_author; label_publisher; label_year; label_price].

(** A string of ASCII characters.  On such strings the operations of module
    [Py] are those of Python; outside ASCII Python knows further digits, white
    space and letters with case. *)
Fixpoint is_ascii (s : string) : bool :=
  match s with
  | EmptyString => true
  | String c s' => (nat_of_ascii c <? 128) && is_ascii s'
  end.

(** The [isbn] field of every item the server returns is ASCII. *)
Definition ascii_isbns (server : Server) : Prop :=
  forall l u status_code items item,
    server l u = Http status_code items -> In item items -> is_ascii (isbn item) = true.

(** * Properties *)

(** ** Strings *)

Section StringFacts.

Implicit Types s t pre post needle hay : string.

Lemma append_nil t : "" +:+ t = t.
Proof. reflexivity. Qed.

Lemma append_cons c s t : String c s +:+ t = String c (s +:+ t).
Proof. reflexivity. Qed.

Lemma append_empty_r s : s +:+ "" = s.
Proof.
  induction s as [|c s IH]; [reflexivity | now rewrite append_cons, IH].
Qed.

Lemma append_assoc s t u : (s +:+ t) +:+ u = s +:+ t +:+ u.
Proof.
  induction s as [|c s IH]; [reflexivity | now rewrite !append_cons, IH].
Qed.

Lemma append_length s t : String.length (s +:+ t) = String.length s + String.length t.
Proof.
  induction s as [|c s IH]; [reflexivity | rewrite append_cons; simpl; now rewrite IH].
Qed.

Lemma prefix_spec needle hay :
  String.prefix needle hay = true <-> exists post, hay = needle +:+ post.
Proof.
  revert hay; induction needle as [|c needle IH]; intros hay.
  - split; [intros _; now exists hay | intros _; now destruct hay].
  - destruct hay as [|d hay]; simpl.
    + split; [discriminate | intros [post H]; discriminate].
    + destruct (Ascii.ascii_dec c d) as [->|Hne].
      * rewrite IH. split; intros [post H]; exists post;
          rewrite ?append_cons in *; congruence.
      * split; [discriminate | intros [post H]; rewrite append_cons in H; congruence].
Qed.

Lemma contains_nil needle : Py.contains needle "" = String.prefix needle "".
Proof. unfold Py.contains. apply orb_false_r. Qed.

Lemma contains_cons needle d hay :
  Py.contains needle (String d hay)
  = String.prefix needle (String d hay) || Py.contains needle hay.
Proof. reflexivity. Qed.

(** [needle in hay] holds exactly when [hay] splits around [needle]. *)
Lemma contains_spec needle hay :
  Py.contains needle hay = true <-> exists pre post, hay = pre +:+ needle +:+ post.
Proof.
  induction hay as [|d hay IH].
  - rewrite contains_nil, prefix_spec. split.
    + intros [post H]. now exists "", post.
    + intros [pre [post H]]. destruct pre; [now exists post | discriminate].
  - rewrite contains_cons, orb_true_iff, prefix_spec, IH. split.
    + intros [[post H] | [pre [post H]]].
      * now exists "", post.
      * exists (String d pre), post. now rewrite append_cons, H.
    + intros [pre [post H]]. destruct pre as [|c pre].
      * left. now exists post.
      * right. exists pre, post. rewrite append_cons in H. congruence.
Qed.

Lemma contains_empty hay : Py.contains "" hay = true.
Proof. apply contains_spec. now exists "", hay. Qed.

Lemma contains_refl s : Py.contains s s = true.
Proof. apply contains_spec. exists "", "". symmetry. exact (append_empty_r s). Qed.

End StringFacts.

(** ** The year extractor *)

Section YearFacts.

Implicit Types s w pre post : string.

Lemma search_d4_cons a s :
  Py.search_d4 (String a s)
  = match starts_d4 (String a s) with
    | Some y => Some y
    | None => Py.search_d4 s
    end.
Proof.
  destruct s as [|b [|c [|d s]]]; try reflexivity.
  simpl. now destruct (Py.is_digit a && Py.is_digit b && Py.is_digit c && Py.is_digit d).
Qed.

Lemma starts_d4_spec s y :
  starts_d4 s = Some y <-> window4 y /\ exists post, s = y +:+ post.
Proof.
  split.
  - destruct s as [|a [|b [|c [|d s]]]]; try discriminate. simpl.
    destruct (Py.is_digit a) eqn:Ha, (Py.is_digit b) eqn:Hb,
      (Py.is_digit c) eqn:Hc, (Py.is_digit d) eqn:Hd; try discriminate.
    intros [= <-]. split.
    + split; [reflexivity | simpl; now rewrite Ha, Hb, Hc, Hd].
    + now exists s.
  - intros [[Hlen Hdig] [post ->]].
    destruct y as [|a [|b [|c [|d [|e y]]]]]; try discriminate.
    simpl in Hdig. rewrite !andb_true_iff in Hdig.
    destruct Hdig as (Ha & Hb & Hc & Hd & _).
    rewrite !append_cons. simpl. now rewrite Ha, Hb, Hc, Hd.
Qed.

Lemma starts_d4_none s w post : starts_d4 s = None -> s = w +:+ post -> ~ window4 w.
Proof.
  intros Hnone Hs Hw.
  assert (starts_d4 s = Some w) as E by (apply starts_d4_spec; eauto).
  congruence.
Qed.

(** [re.search] finds the leftmost window of four digits, and fails only
    when the string has none. *)
Lemma search_d4_spec s :
  match Py.search_d4 s with
  | Some y =>
      exists pre, window4_at s pre y
        /\ forall pre' w, window4_at s pre' w -> String.length pre <= String.length pre'
  | None => forall pre w, ~ window4_at s pre w
  end.
Proof.
  induction s as [|a s IH].
  - simpl. intros pre w [[Hlen _] [post H]].
    apply (f_equal String.length) in H. rewrite !append_length in H. simpl in H. lia.
  - rewrite search_d4_cons. destruct (starts_d4 (String a s)) as [y|] eqn:E.
    + apply starts_d4_spec in E as [Hw [post Hs]].
      exists "". split; [split; [exact Hw | now exists post] | simpl; lia].
    + destruct (Py.search_d4 s) as [y|].
      * destruct IH as [pre [[Hw [post Hs]] Hleft]].
        exists (String a pre). split.
        -- split; [exact Hw | exists post; now rewrite append_cons, <- Hs].
        -- intros pre' w [Hw' [post' Hs']]. destruct pre' as [|a' pre'].
           ++ now destruct (starts_d4_none _ w post' E Hs').
           ++ rewrite append_cons in Hs'. injection Hs' as _ Hs'.
              simpl. apply le_n_S, (Hleft pre' w). split; [exact Hw' | now exists post'].
      * intros pre w [Hw [post Hs]]. destruct pre as [|a' pre].
        -- now destruct (starts_d4_none _ w post E Hs).
        -- rewrite append_cons in Hs. injection Hs as _ Hs.
           apply (IH pre w). split; [exact Hw | now exists post].
Qed.

Lemma space_not_digit c : Py.is_space c = true -> Py.is_digit c = false.
Proof.
  unfold Py.is_space, Py.is_digit. intros H.
  destruct (48 <=? nat_of_ascii c) eqn:E; [|reflexivity].
  apply Nat.leb_le in E. rewrite orb_true_iff, !andb_true_iff, !Nat.leb_le in H.
  exfalso. lia.
Qed.

Lemma starts_d4_not_digit a s : Py.is_digit a = false -> starts_d4 (String a s) = None.
Proof.
  intros Ha. destruct s as [|b [|c [|d s]]]; try reflexivity. simpl. now rewrite Ha.
Qed.

Lemma search_d4_all_space r : all_space r = true -> Py.search_d4 r = None.
Proof.
  induction r as [|a r IH]; [reflexivity|]. simpl all_space.
  rewrite andb_true_iff. intros [Ha Hr].
  rewrite search_d4_cons, starts_d4_not_digit by now apply space_not_digit.
  now apply IH.
Qed.

(** White space after the string does not complete a window. *)
Lemma starts_d4_app_space s r :
  all_space r = true -> starts_d4 (s +:+ r) = starts_d4 s.
Proof.
  intros Hr.
  assert (forall x r', r = String x r' -> Py.is_digit x = false) as Hx.
  { intros x r' ->. simpl in Hr. apply andb_true_iff in Hr as [Hx _].
    now apply space_not_digit. }
  destruct s as [|a [|b [|c [|d s]]]]; rewrite ?append_cons, ?append_nil;
    [| | | |reflexivity].
  - destruct r as [|x r]; [reflexivity|].
    apply starts_d4_not_digit, (Hx x r eq_refl).
  - destruct r as [|x [|y [|z r]]]; try reflexivity.
    simpl. rewrite (Hx x _ eq_refl). now rewrite andb_false_r.
  - destruct r as [|x [|y r]]; try reflexivity.
    simpl. rewrite (Hx x _ eq_refl). now rewrite andb_false_r.
  - destruct r as [|x r]; try reflexivity.
    simpl. rewrite (Hx x _ eq_refl). now rewrite andb_false_r.
Qed.

Lemma search_d4_app_space s r :
  all_space r = true -> Py.search_d4 (s +:+ r) = Py.search_d4 s.
Proof.
  intros Hr. induction s as [|a s IH].
  - rewrite append_nil. now apply search_d4_all_space.
  - rewrite append_cons, !search_d4_cons, <- append_cons.
    now rewrite starts_d4_app_space, IH.
Qed.

Lemma search_d4_lstrip s : Py.search_d4 (Py.lstrip s) = Py.search_d4 s.
Proof.
  induction s as [|a s IH]; [reflexivity|]. simpl Py.lstrip.
  destruct (Py.is_space a) eqn:Ha; [|reflexivity].
  now rewrite IH, search_d4_cons, starts_d4_not_digit by now apply space_not_digit.
Qed.

Lemma rstrip_decompose s : exists r, all_space r = true /\ s = Py.rstrip s +:+ r.
Proof.
  induction s as [|a s [r [Hr Hs]]]; [now exists ""|]. simpl Py.rstrip.
  destruct (Py.rstrip s) as [|b t] eqn:E.
  - rewrite append_nil in Hs. subst r. destruct (Py.is_space a) eqn:Ha.
    + exists (String a s). split; [simpl; now rewrite Ha | reflexivity].
    + exists s. now split.
  - exists r. split; [exact Hr | now rewrite append_cons, <- Hs].
Qed.

(** Stripping the date first does not change what the search finds. *)
Lemma search_d4_strip s : Py.search_d4 (Py.strip s) = Py.search_d4 s.
Proof.
  unfold Py.strip. destruct (rstrip_decompose (Py.lstrip s)) as [r [Hr Hs]].
  rewrite <- (search_d4_lstrip s). rewrite Hs at 2.
  now rewrite search_d4_app_space.
Qed.

Lemma extract_year_search s :
  extract_year (Some s) = match Py.search_d4 s with Some m => m | None => "" end.
Proof. unfold extract_year. now rewrite search_d4_strip. Qed.

End YearFacts.

Example strip_spaces : Py.strip "  a b  " = "a b".
Proof. reflexivity. Qed.

Example remove_bold : Py.remove "</b>" (Py.remove "<b>" "x <b>y</b> z") = "x y z".
Proof. reflexivity. Qed.

Example remove_no_overlap : Py.remove "aa" "aaa" = "a".
Proof. reflexivity. Qed.

Example split_tokens : Py.split "  8901234567   9788901234567 " = ["8901234567"; "9788901234567"].
Proof. reflexivity. Qed.

Example quote_query : Py.quote "a b/c~?" = "a%20b/c~%3F".
Proof. reflexivity. Qed.

Example extract_isbn13_second : extract_isbn13 "8901234567 9788901234567" = Some "9788901234567".
Proof. reflexivity. Qed.

Example extract_isbn13_first : extract_isbn13 "9788901234567 8901234567" = Some "9788901234567".
Proof. reflexivity. Qed.

Example extract_isbn13_absent : extract_isbn13 "8901234567 97889012345x7" = None.
Proof. reflexivity. Qed.

Example extract_year_date : extract_year (Some "2021-03-01") = "2021".
Proof. reflexivity. Qed.

Example extract_year_compact : extract_year (Some " 20210301 ") = "2021".
Proof. reflexivity. Qed.

Example extract_year_no_digits : extract_year (Some "no year here") = "".
Proof. reflexivity. Qed.

Example spec_extract_year_date : spec_extract_year (Some "2021-03-01") = "2021".
Proof. reflexivity. Qed.

(** C9, as amended.  The year extractor returns the leftmost window of four
    consecutive decimal digits found anywhere in the string, whether or not
    more digits follow it (so ["12345"] gives ["1234"]); it returns the empty
    string exactly when the input is absent or the string has no four
    consecutive digits. *)
Theorem extract_year_leftmost_window (pubdate_ : option string) :
  ((extract_year pubdate_ = ""
    /\ (pubdate_ = None
        \/ exists s, pubdate_ = Some s /\ forall pre w, ~ window4_at s pre w))
   \/ (exists s pre, pubdate_ = Some s
        /\ window4_at s pre (extract_year pubdate_)
        /\ forall pre' w, window4_at s pre' w -> String.length pre <= String.length pre'))
  /\ extract_year (Some "12345") = "1234".
Proof.
  split; [|reflexivity].
  destruct pubdate_ as [s|]; [|left; split; [reflexivity | now left]].
  rewrite extract_year_search. pose proof (search_d4_spec s) as H.
  destruct (Py.search_d4 s) as [y|].
  - right. destruct H as [pre [Hat Hleft]]. now exists s, pre.
  - left. split; [reflexivity|]. right. now exists s.
Qed.

(** C9, as stated, fails: the only digit run of ["12345"] has five digits,
    so the specification's extractor gives the empty string, and the program
    gives ["1234"]. *)
Lemma extract_year_longer_run :
  spec_extract_year (Some "12345") = "" /\ extract_year (Some "12345") = "1234".
Proof. split; reflexivity. Qed.

(** ** The candidate matcher *)

Lemma item_matches_unfold title_ author_ publisher_ pub_year item :
  item_matches title_ author_ publisher_ pub_year item
  = Py.contains (Py.lower title_) (item_title item)
    && Py.contains (Py.lower author_) (item_author item)
    && Py.contains (Py.lower publisher_) (item_publisher item)
    && String.eqb pub_year (item_pub_year item).
Proof. reflexivity. Qed.

Lemma item_pub_year_raw item : item_pub_year item = extract_year (Some (pubdate item)).
Proof.
  unfold item_pub_year. rewrite !extract_year_search. now rewrite search_d4_strip.
Qed.

(** C1, as amended.  The matcher's title, author and publisher checks are
    one-directional: the wanted field, lowercased, must occur in the
    candidate's field (lowercased and trimmed); the year must be equal.  An
    empty wanted author or publisher occurs in every string, so these two
    checks are then satisfied. *)
Theorem item_matches_one_way (title_ author_ publisher_ pub_year : string) (item : Item) :
  (item_matches title_ author_ publisher_ pub_year item = true
   <-> substring_of (Py.lower title_) (item_title item)
       /\ substring_of (Py.lower author_) (item_author item)
       /\ substring_of (Py.lower publisher_) (item_publisher item)
       /\ pub_year = item_pub_year item)
  /\ (item_matches title_ "" "" pub_year item = true
      <-> substring_of (Py.lower title_) (item_title item)
          /\ pub_year = item_pub_year item).
Proof.
  rewrite !item_matches_unfold. unfold substring_of. split.
  - rewrite !andb_true_iff, !contains_spec, String.eqb_eq. tauto.
  - simpl Py.lower. rewrite !contains_empty, !andb_true_r.
    now rewrite andb_true_iff, contains_spec, String.eqb_eq.
Qed.

(** C1, as stated, fails: the candidate's title ["Foo"] is a proper substring
    of the wanted title ["Foo Bar"] and every other check passes; the matcher
    of the specification accepts the candidate, the program's does not. *)
Lemma item_matches_not_bidirectional :
  spec_item_matches "Foo Bar" "" "" "" wanted_longer = true
  /\ item_matches "Foo Bar" "" "" "" wanted_longer = false.
Proof. split; reflexivity. Qed.

(** C4, as amended.  The year check is not skipped when the wanted year is
    empty: the wanted year is compared with the candidate's extracted year,
    so a wanted record with an empty year matches exactly the candidates that
    pass the other three checks and whose publication date yields no year. *)
Theorem item_matches_empty_year (title_ author_ publisher_ : string) (item : Item) :
  item_matches title_ author_ publisher_ "" item = true
  <-> Py.contains (Py.lower title_) (item_title item) = true
      /\ Py.contains (Py.lower author_) (item_author item) = true
      /\ Py.contains (Py.lower publisher_) (item_publisher item) = true
      /\ extract_year (Some (pubdate item)) = "".
Proof.
  rewrite item_matches_unfold, !andb_true_iff, String.eqb_eq, item_pub_year_raw.
  intuition congruence.
Qed.

(** C4, as stated, fails: the candidate's date yields the year ["2021"], the
    wanted year is empty and the other checks pass; the matcher of the
    specification accepts the candidate, the program's does not. *)
Lemma item_matches_year_not_skipped :
  extract_year (Some (pubdate dated_item)) = "2021"
  /\ spec_item_matches "Foo" "" "" "" dated_item = true
  /\ item_matches "Foo" "" "" "" dated_item = false.
Proof. repeat split; reflexivity. Qed.

(** ** The query cascade *)

Section CascadeFacts.

Variable server : Server.
Variables title_ author_ publisher_ pub_year : string.

Local Abbreviation scan := (scan_items title_ author_ publisher_ pub_year).
Local Abbreviation loop := (query_loop server title_ author_ publisher_ pub_year).
Local Abbreviation run := (cascade server title_ author_ publisher_ pub_year).

Lemma log_repeat_S (log : list string) u r :
  (log ++ [u]) ++ repeat u r = log ++ repeat u (S r).
Proof. simpl. now rewrite <- app_assoc. Qed.

Lemma log_repeat_snoc (log : list string) u r :
  (log ++ repeat u r) ++ [u] = log ++ repeat u (S r).
Proof. rewrite <- app_assoc. f_equal. symmetry. apply repeat_cons. Qed.

Lemma extract_isbn13_truthy isbn_str isbn13 :
  extract_isbn13 isbn_str = Some isbn13 -> Py.truthy isbn13 = true.
Proof.
  unfold extract_isbn13. destruct (negb (Py.truthy isbn_str)); [discriminate|].
  intros H. apply find_some in H as [_ H]. apply andb_true_iff in H as [H _].
  now destruct isbn13.
Qed.

Lemma scan_items_none items :
  forallb (fun item => negb (usable title_ author_ publisher_ pub_year item)) items = true ->
  scan items = None.
Proof.
  induction items as [|item items IH]; [reflexivity|]. simpl.
  rewrite andb_true_iff, negb_true_iff. unfold usable. intros [Hitem Hrest].
  destruct (item_matches title_ author_ publisher_ pub_year item); [|now apply IH].
  destruct (extract_isbn13 (isbn item)) as [i|]; [|now apply IH].
  simpl in Hitem. rewrite Hitem. now apply IH.
Qed.

Lemma scan_items_first before item after isbn13 :
  forallb (fun item => negb (usable title_ author_ publisher_ pub_year item)) before = true ->
  item_matches title_ author_ publisher_ pub_year item = true ->
  extract_isbn13 (isbn item) = Some isbn13 ->
  scan (before ++ item :: after) = Some isbn13.
Proof.
  intros Hbefore Hitem Hisbn. induction before as [|b before IH]; simpl.
  - now rewrite Hitem, Hisbn, (extract_isbn13_truthy _ _ Hisbn).
  - simpl in Hbefore. rewrite andb_true_iff, negb_true_iff in Hbefore.
    destruct Hbefore as [Hb Hbefore]. unfold usable in Hb.
    destruct (item_matches title_ author_ publisher_ pub_year b); [|now apply IH].
    destruct (extract_isbn13 (isbn b)) as [i|]; [|now apply IH].
    simpl in Hb. rewrite Hb. now apply IH.
Qed.

Lemma query_loop_S u k log :
  loop u (S k) log
  = match server log u with
    | Http status_code items =>
        if status_code =? 200 then
          match items with
          | first_item :: _ =>
              match scan items with
              | Some isbn13 => (Returned (Some isbn13), log ++ [u])
              | None => (Returned (extract_isbn13 (isbn first_item)), log ++ [u])
              end
          | [] => (NextQuery, log ++ [u])
          end
        else if status_code =? 429 then loop u k (log ++ [u])
        else (Returned None, log ++ [u])
    | RequestException => (Returned None, log ++ [u])
    end.
Proof. reflexivity. Qed.

(** Rate-limited attempts only use up retries. *)
Lemma query_loop_throttled u r k log :
  throttled server log u r = true ->
  loop u (r + k) log = loop u k (log ++ repeat u r).
Proof.
  revert log. induction r as [|r IH]; intros log H.
  - simpl. now rewrite app_nil_r.
  - simpl in H. rewrite Nat.add_succ_l, query_loop_S.
    destruct (server log u) as [code items|]; [|discriminate].
    apply andb_true_iff in H as [Hcode H]. apply Nat.eqb_eq in Hcode. subst code.
    change (429 =? 200) with false. change (429 =? 429) with true. cbv iota.
    rewrite IH by exact H. now rewrite log_repeat_S.
Qed.

Lemma query_loop_answer u r max_retries log items :
  r < max_retries ->
  throttled server log u r = true ->
  server (log ++ repeat u r) u = Http 200 items ->
  loop u max_retries log
  = (match items with
     | first_item :: _ =>
         match scan items with
         | Some isbn13 => Returned (Some isbn13)
         | None => Returned (extract_isbn13 (isbn first_item))
         end
     | [] => NextQuery
     end, log ++ repeat u (S r)).
Proof.
  intros Hr Hthrottled Hanswer.
  replace max_retries with (r + S (max_retries - S r)) by lia.
  rewrite query_loop_throttled by exact Hthrottled.
  rewrite query_loop_S, Hanswer.
  change (200 =? 200) with true. cbv iota. rewrite log_repeat_snoc.
  destruct items as [|first_item others]; [reflexivity|].
  now destruct (scan_items title_ author_ publisher_ pub_year (first_item :: others)).
Qed.

Lemma query_loop_exhausted u max_retries log :
  throttled server log u max_retries = true ->
  loop u max_retries log = (NextQuery, log ++ repeat u max_retries).
Proof.
  intros H. replace max_retries with (max_retries + 0) at 1 by lia.
  now rewrite query_loop_throttled.
Qed.

Lemma cascade_returned max_retries query rest log isbn13 log' :
  loop (search_url query) max_retries log = (Returned isbn13, log') ->
  run max_retries (query :: rest) log = (isbn13, log').
Proof. intros H. simpl. now rewrite H. Qed.

Lemma cascade_next max_retries query rest log log' :
  loop (search_url query) max_retries log = (NextQuery, log') ->
  run max_retries (query :: rest) log = run max_retries rest log'.
Proof. intros H. simpl. now rewrite H. Qed.

Lemma cascade_no_usable max_retries query rest log r first_item others :
  r < max_retries ->
  throttled server log (search_url query) r = true ->
  server (log ++ repeat (search_url query) r) (search_url query)
    = Http 200 (first_item :: others) ->
  forallb (fun item => negb (usable title_ author_ publisher_ pub_year item))
    (first_item :: others) = true ->
  run max_retries (query :: rest) log
  = (extract_isbn13 (isbn first_item), log ++ repeat (search_url query) (S r)).
Proof.
  intros Hr Hthrottled Hanswer Hnone. apply cascade_returned.
  rewrite (query_loop_answer _ r _ _ _ Hr Hthrottled Hanswer).
  now rewrite (scan_items_none _ Hnone).
Qed.

Lemma cascade_first_usable max_retries query rest log r before item after isbn13 :
  r < max_retries ->
  throttled server log (search_url query) r = true ->
  server (log ++ repeat (search_url query) r) (search_url query)
    = Http 200 (before ++ item :: after) ->
  forallb (fun item => negb (usable title_ author_ publisher_ pub_year item)) before = true ->
  item_matches title_ author_ publisher_ pub_year item = true ->
  extract_isbn13 (isbn item) = Some isbn13 ->
  run max_retries (query :: rest) log
  = (Some isbn13, log ++ repeat (search_url query) (S r)).
Proof.
  intros Hr Hthrottled Hanswer Hbefore Hitem Hisbn. apply cascade_returned.
  rewrite (query_loop_answer _ r _ _ _ Hr Hthrottled Hanswer).
  rewrite (scan_items_first _ _ _ _ Hbefore Hitem Hisbn).
  now destruct before.
Qed.

Lemma cascade_zero_items max_retries query rest log r :
  r < max_retries ->
  throttled server log (search_url query) r = true ->
  server (log ++ repeat (search_url query) r) (search_url query) = Http 200 [] ->
  run max_retries (query :: rest) log
  = run max_retries rest (log ++ repeat (search_url query) (S r)).
Proof.
  intros Hr Hthrottled Hanswer. apply cascade_next.
  now rewrite (query_loop_answer _ r _ _ _ Hr Hthrottled Hanswer).
Qed.

Lemma cascade_all_zero max_retries queries log :
  0 < max_retries ->
  (forall l query, In query queries -> server l (search_url query) = Http 200 []) ->
  run max_retries queries log = (None, log ++ map search_url queries).
Proof.
  intros Hmax. revert log. induction queries as [|query rest IH]; intros log Hzero.
  - simpl. now rewrite app_nil_r.
  - rewrite (cascade_zero_items _ _ _ _ 0 Hmax eq_refl).
    + rewrite IH by (intros l q Hq; apply Hzero; now right).
      simpl. now rewrite <- app_assoc.
    + apply Hzero. now left.
Qed.

End CascadeFacts.

Section LookupFacts.

Variable server : Server.

Lemma book_info_loop_S u k log :
  book_info_loop server u (S k) log
  = match server log u with
    | Http status_code items =>
        if status_code =? 200 then
          match items with
          | item :: _ => (Some (book_info_of_item item), log ++ [u])
          | [] => (None, log ++ [u])
          end
        else if status_code =? 429 then book_info_loop server u k (log ++ [u])
        else (None, log ++ [u])
    | RequestException => (None, log ++ [u])
    end.
Proof. reflexivity. Qed.

Lemma book_info_loop_throttled u r k log :
  throttled server log u r = true ->
  book_info_loop server u (r + k) log = book_info_loop server u k (log ++ repeat u r).
Proof.
  revert log. induction r as [|r IH]; intros log H.
  - simpl. now rewrite app_nil_r.
  - simpl in H. rewrite Nat.add_succ_l, book_info_loop_S.
    destruct (server log u) as [code items|]; [|discriminate].
    apply andb_true_iff in H as [Hcode H]. apply Nat.eqb_eq in Hcode. subst code.
    change (429 =? 200) with false. change (429 =? 429) with true. cbv iota.
    rewrite IH by exact H. now rewrite log_repeat_S.
Qed.

Lemma book_info_loop_exhausted u max_retries log :
  throttled server log u max_retries = true ->
  book_info_loop server u max_retries log = (None, log ++ repeat u max_retries).
Proof.
  intros H. replace max_retries with (max_retries + 0) at 1 by lia.
  now rewrite book_info_loop_throttled.
Qed.

Lemma book_info_loop_answer u r max_retries log items :
  r < max_retries ->
  throttled server log u r = true ->
  server (log ++ repeat u r) u = Http 200 items ->
  book_info_loop server u max_retries log
  = (match items with
     | item :: _ => Some (book_info_of_item item)
     | [] => None
     end, log ++ repeat u (S r)).
Proof.
  intros Hr Hthrottled Hanswer.
  replace max_retries with (r + S (max_retries - S r)) by lia.
  rewrite book_info_loop_throttled by exact Hthrottled.
  rewrite book_info_loop_S, Hanswer.
  change (200 =? 200) with true. cbv iota. rewrite log_repeat_snoc.
  now destruct items.
Qed.

End LookupFacts.

Lemma no_match_no_usable title_ author_ publisher_ pub_year items :
  forallb (fun item => negb (item_matches title_ author_ publisher_ pub_year item)) items = true ->
  forallb (fun item => negb (usable title_ author_ publisher_ pub_year item)) items = true.
Proof.
  rewrite !forallb_forall. intros H item Hin. specialize (H item Hin).
  unfold usable. apply negb_true_iff in H. now rewrite H.
Qed.

(** C2, as amended.  When the lookup for a query of the cascade succeeds
    (after fewer than [max_retries] rate-limited attempts) with at least one
    item, the items are scanned in returned order against the full wanted
    record, and the identifier of the first item that satisfies the matcher
    and from which an identifier can be extracted is returned; a matching item
    whose extraction is absent is passed over, and when no item qualifies the
    extraction of the first item is returned.  In every case the cascade ends
    there: the request log holds no request for a later query. *)
Theorem cascade_returns_first_usable
    (server : Server) (title_ author_ publisher_ pub_year : string)
    (max_retries : nat) (query : string) (rest log : list string)
    (r : nat) (items : list Item) :
  r < max_retries ->
  throttled server log (search_url query) r = true ->
  server (log ++ repeat (search_url query) r) (search_url query) = Http 200 items ->
  (forall before item after isbn13,
      items = before ++ item :: after ->
      forallb (fun item => negb (usable title_ author_ publisher_ pub_year item)) before = true ->
      item_matches title_ author_ publisher_ pub_year item = true ->
      extract_isbn13 (isbn item) = Some isbn13 ->
      cascade server title_ author_ publisher_ pub_year max_retries (query :: rest) log
      = (Some isbn13, log ++ repeat (search_url query) (S r)))
  /\ (forall first_item others,
      items = first_item :: others ->
      forallb (fun item => negb (usable title_ author_ publisher_ pub_year item)) items = true ->
      cascade server title_ author_ publisher_ pub_year max_retries (query :: rest) log
      = (extract_isbn13 (isbn first_item), log ++ repeat (search_url query) (S r))).
Proof.
  intros Hr Hthrottled Hanswer. split.
  - intros before item after isbn13 -> Hbefore Hitem Hisbn.
    now apply (cascade_first_usable server title_ author_ publisher_ pub_year
                 max_retries query rest log r before item after).
  - intros first_item others -> Hnone.
    now apply (cascade_no_usable server title_ author_ publisher_ pub_year
                 max_retries query rest log r first_item others).
Qed.

Lemma cascade_returns_first_usable_witness :
  cascade (always (Http 200 [item_without_isbn; item_with_isbn])) "Foo" "" "" ""
    5 (query_combinations "Foo" "" "" "") []
  = (Some "9788901234567", [search_url "Foo   "]).
Proof.
  apply (proj1 (cascade_returns_first_usable
                  (always (Http 200 [item_without_isbn; item_with_isbn]))
                  "Foo" "" "" "" 5 "Foo   " ["Foo "; "Foo "; "Foo"] [] 0
                  [item_without_isbn; item_with_isbn]
                  (Nat.lt_0_succ 4) eq_refl eq_refl)
           [item_without_isbn] item_with_isbn [] "9788901234567");
    reflexivity.
Defined.

(** C2, as stated, fails: the first item that satisfies the matcher yields no
    identifier, so the claim has absence returned, while the program goes on
    to the second matching item and returns its identifier. *)
Lemma cascade_skips_match_without_isbn :
  List.find (item_matches "Foo" "" "" "") [item_without_isbn; item_with_isbn]
    = Some item_without_isbn
  /\ extract_isbn13 (isbn item_without_isbn) = None
  /\ spec_pick "Foo" "" "" "" [item_without_isbn; item_with_isbn] = None
  /\ fst (get_isbn13_from_title_author_pub
            (always (Http 200 [item_without_isbn; item_with_isbn]))
            "Foo" "" "" "" default_max_retries [])
     = Some "9788901234567".
Proof. repeat split; reflexivity. Qed.

(** The second query finds the book and the last two are not sent. *)
Example cascade_falls_back_once :
  get_isbn13_from_title_author_pub title_author_server "Foo" "Kim" "" "" default_max_retries []
  = (Some "9788901234567", [search_url "Foo Kim  "; search_url "Foo Kim"]).
Proof. reflexivity. Qed.

(** C3.  When a query returns at least one item and no item satisfies the
    matcher, the identifier extracted from the first item is returned and no
    further query is attempted; when a query succeeds with zero items the
    cascade goes on with the next query; and when each of the four queries is
    answered with zero items the result is absence, after one request per
    query. *)
Theorem cascade_stops_on_items_continues_on_none :
  (forall (server : Server) (title_ author_ publisher_ pub_year : string)
      (max_retries : nat) (query : string) (rest log : list string) (r : nat)
      (items : list Item),
      r < max_retries ->
      throttled server log (search_url query) r = true ->
      server (log ++ repeat (search_url query) r) (search_url query) = Http 200 items ->
      (forall first_item others,
          items = first_item :: others ->
          forallb (fun item => negb (item_matches title_ author_ publisher_ pub_year item))
            items = true ->
          cascade server title_ author_ publisher_ pub_year max_retries (query :: rest) log
          = (extract_isbn13 (isbn first_item), log ++ repeat (search_url query) (S r)))
      /\ (items = [] ->
          cascade server title_ author_ publisher_ pub_year max_retries (query :: rest) log
          = cascade server title_ author_ publisher_ pub_year max_retries rest
              (log ++ repeat (search_url query) (S r))))
  /\ (forall (server : Server) (title_ author_ publisher_ pub_year : string)
        (max_retries : nat) (log : list string),
        0 < max_retries ->
        (forall l query,
            In query (query_combinations title_ author_ publisher_ pub_year) ->
            server l (search_url query) = Http 200 []) ->
        get_isbn13_from_title_author_pub server title_ author_ publisher_ pub_year
          max_retries log
        = (None,
           log ++ map search_url (query_combinations title_ author_ publisher_ pub_year))).
Proof.
  split.
  - intros server title_ author_ publisher_ pub_year max_retries query rest log r items
      Hr Hthrottled Hanswer. split.
    + intros first_item others -> Hnone.
      apply (cascade_no_usable server title_ author_ publisher_ pub_year
               max_retries query rest log r first_item others); try assumption.
      now apply no_match_no_usable.
    + intros ->. now apply cascade_zero_items.
  - intros server title_ author_ publisher_ pub_year max_retries log Hmax Hzero.
    unfold get_isbn13_from_title_author_pub. now apply cascade_all_zero.
Qed.

Lemma cascade_stops_on_items_continues_on_none_witness :
  cascade (always (Http 200 [other_item])) "Foo" "" "" ""
    5 (query_combinations "Foo" "" "" "") []
  = (Some "9791234567890", [search_url "Foo   "]).
Proof.
  apply (proj1 (proj1 cascade_stops_on_items_continues_on_none
                  (always (Http 200 [other_item]))
                  "Foo" "" "" "" 5 "Foo   " ["Foo "; "Foo "; "Foo"] [] 0
                  [other_item] (Nat.lt_0_succ 4) eq_refl eq_refl)
           other_item []);
    reflexivity.
Defined.

(** C5, as amended.  A run of rate-limit responses that uses up the maximum
    attempt count is not told apart from a successful response with zero
    items: [get_book_info_by_isbn13] returns [None] in both cases, and in the
    resolver both leave the retry loop towards the next query of the
    cascade. *)
Theorem rate_limit_exhaustion_same_as_zero_items :
  (forall (server_a server_b : Server) (isbn13 : string) (max_retries r : nat)
      (log : list string),
      throttled server_a log (isbn_url isbn13) max_retries = true ->
      r < max_retries ->
      throttled server_b log (isbn_url isbn13) r = true ->
      server_b (log ++ repeat (isbn_url isbn13) r) (isbn_url isbn13) = Http 200 [] ->
      get_book_info_by_isbn13_body server_a isbn13 max_retries log
      = (None, log ++ repeat (isbn_url isbn13) max_retries)
      /\ get_book_info_by_isbn13_body server_b isbn13 max_retries log
         = (None, log ++ repeat (isbn_url isbn13) (S r)))
  /\ (forall (server_a server_b : Server) (title_ author_ publisher_ pub_year : string)
        (query : string) (rest : list string) (max_retries r : nat) (log : list string),
        throttled server_a log (search_url query) max_retries = true ->
        r < max_retries ->
        throttled server_b log (search_url query) r = true ->
        server_b (log ++ repeat (search_url query) r) (search_url query) = Http 200 [] ->
        cascade server_a title_ author_ publisher_ pub_year max_retries (query :: rest) log
        = cascade server_a title_ author_ publisher_ pub_year max_retries rest
            (log ++ repeat (search_url query) max_retries)
        /\ cascade server_b title_ author_ publisher_ pub_year max_retries (query :: rest) log
           = cascade server_b title_ author_ publisher_ pub_year max_retries rest
               (log ++ repeat (search_url query) (S r))).
Proof.
  split.
  - intros server_a server_b isbn13 max_retries r log Ha Hr Hb Hanswer.
    unfold get_isbn13_from_title_author_pub, get_book_info_by_isbn13_body. split.
    + now apply book_info_loop_exhausted.
    + now rewrite (book_info_loop_answer server_b _ r _ _ _ Hr Hb Hanswer).
  - intros server_a server_b title_ author_ publisher_ pub_year query rest max_retries r
      log Ha Hr Hb Hanswer. split.
    + apply cascade_next. now apply query_loop_exhausted.
    + now apply cascade_zero_items.
Qed.

Lemma rate_limit_exhaustion_same_as_zero_items_witness :
  get_book_info_by_isbn13_body (always (Http 429 [])) "9788901234567" 5 []
  = (None, repeat (isbn_url "9788901234567") 5)
  /\ get_book_info_by_isbn13_body (always (Http 200 [])) "9788901234567" 5 []
     = (None, [isbn_url "9788901234567"]).
Proof.
  exact (proj1 rate_limit_exhaustion_same_as_zero_items
           (always (Http 429 [])) (always (Http 200 [])) "9788901234567" 5 0 []
           eq_refl (Nat.lt_0_succ 4) eq_refl eq_refl).
Defined.

(** C5, as stated, fails: after five rate-limit responses the lookup returns
    the same value as after a successful response with zero items, in
    [get_book_info_by_isbn13] and in the resolver. *)
Lemma exhaustion_not_distinguished :
  fst (get_book_info_by_isbn13_body (always (Http 429 [])) "9788901234567"
         default_max_retries [])
  = fst (get_book_info_by_isbn13_body (always (Http 200 [])) "9788901234567"
           default_max_retries [])
  /\ fst (get_isbn13_from_title_author_pub (always (Http 429 [])) "Foo" "" "" ""
            default_max_retries [])
     = fst (get_isbn13_from_title_author_pub (always (Http 200 [])) "Foo" "" "" ""
              default_max_retries []).
Proof. split; reflexivity. Qed.

(** ** The resolution cache *)

Section CacheFacts.

Variable server : Server.

Lemma feature_1_row_no_title st row :
  Py.truthy (cell_text (col1_title row)) = false ->
  feature_1_row server st row = (no_title, st).
Proof. intros H. unfold feature_1_row. now rewrite H. Qed.

Lemma feature_1_row_hit st row isbn13 :
  Py.truthy (cell_text (col1_title row)) = true ->
  isbn_cache st !! cache_key_of row = Some isbn13 ->
  feature_1_row server st row = (isbn_cell isbn13, st).
Proof.
  intros Htitle Hhit. unfold feature_1_row. rewrite Htitle. simpl.
  unfold cache_key_of in Hhit. now rewrite Hhit.
Qed.

Lemma feature_1_row_miss st row :
  Py.truthy (cell_text (col1_title row)) = true ->
  isbn_cache st !! cache_key_of row = None ->
  feature_1_row server st row
  = let r := get_isbn13_from_title_author_pub server
               (cell_text (col1_title row)) (cell_text (col1_author row))
               (cell_text (col1_publisher row)) (extract_year (col1_pub_year row))
               default_max_retries (log1 st) in
    (isbn_cell (fst r),
     {| isbn_cache := <[cache_key_of row := fst r]> (isbn_cache st);
        log1 := snd r;
        resolved := resolved st ++ [cache_key_of row] |}).
Proof.
  intros Htitle Hmiss. unfold feature_1_row. rewrite Htitle. simpl.
  unfold cache_key_of in *. rewrite Hmiss.
  now destruct (get_isbn13_from_title_author_pub _ _ _ _ _ _ _).
Qed.

(** A row with a title leaves its key in the cache, bound to the outcome
    the row was given. *)
Lemma feature_1_row_stores st row :
  Py.truthy (cell_text (col1_title row)) = true ->
  exists isbn13,
    isbn_cache (snd (feature_1_row server st row)) !! cache_key_of row = Some isbn13
    /\ fst (feature_1_row server st row) = isbn_cell isbn13.
Proof.
  intros Htitle. destruct (isbn_cache st !! cache_key_of row) as [v|] eqn:E.
  - exists v. now rewrite (feature_1_row_hit _ _ _ Htitle E).
  - rewrite (feature_1_row_miss _ _ Htitle E). cbv zeta. simpl.
    eexists. split; [apply lookup_insert_eq | reflexivity].
Qed.

(** An entry of the cache is never overwritten. *)
Lemma feature_1_row_keeps st row k v :
  isbn_cache st !! k = Some v ->
  isbn_cache (snd (feature_1_row server st row)) !! k = Some v.
Proof.
  intros Hk. destruct (Py.truthy (cell_text (col1_title row))) eqn:Htitle.
  - destruct (isbn_cache st !! cache_key_of row) as [w|] eqn:E.
    + now rewrite (feature_1_row_hit _ _ _ Htitle E).
    + rewrite (feature_1_row_miss _ _ Htitle E). cbv zeta. simpl.
      rewrite lookup_insert_ne; [exact Hk | congruence].
  - now rewrite (feature_1_row_no_title _ _ Htitle).
Qed.

Lemma feature_1_rows_keeps rows st k v :
  isbn_cache st !! k = Some v ->
  isbn_cache (snd (feature_1_rows server st rows)) !! k = Some v.
Proof.
  revert st. induction rows as [|row rows IH]; intros st Hk; [exact Hk|].
  simpl. pose proof (feature_1_row_keeps st row k v Hk) as H.
  destruct (feature_1_row server st row) as [out st'].
  specialize (IH st' H). now destruct (feature_1_rows server st' rows).
Qed.

Lemma feature_1_rows_app rows1 rows2 st :
  feature_1_rows server st (rows1 ++ rows2)
  = (fst (feature_1_rows server st rows1)
       ++ fst (feature_1_rows server (snd (feature_1_rows server st rows1)) rows2),
     snd (feature_1_rows server (snd (feature_1_rows server st rows1)) rows2)).
Proof.
  revert st. induction rows1 as [|row rows1 IH]; intros st.
  - simpl. now destruct (feature_1_rows server st rows2).
  - simpl. destruct (feature_1_row server st row) as [out st'].
    rewrite IH. now destruct (feature_1_rows server st' rows1).
Qed.

Lemma feature_1_rows_length rows st :
  length (fst (feature_1_rows server st rows)) = length rows.
Proof.
  revert st. induction rows as [|row rows IH]; intros st; [reflexivity|].
  simpl. destruct (feature_1_row server st row) as [out st'].
  specialize (IH st'). destruct (feature_1_rows server st' rows). simpl in *. lia.
Qed.

Lemma feature_1_row_inv st row :
  run1_inv st -> run1_inv (snd (feature_1_row server st row)).
Proof.
  intros [Hnodup Hdom]. destruct (Py.truthy (cell_text (col1_title row))) eqn:Htitle.
  - destruct (isbn_cache st !! cache_key_of row) as [w|] eqn:E.
    + rewrite (feature_1_row_hit _ _ _ Htitle E). now split.
    + rewrite (feature_1_row_miss _ _ Htitle E). cbv zeta. simpl. split; simpl.
      * apply NoDup_app. repeat split.
        -- exact Hnodup.
        -- intros k Hk Hin. apply list_elem_of_In in Hk.
           apply list_elem_of_singleton in Hin. subst k.
           destruct (Hdom _ Hk) as [v Hv]. congruence.
        -- apply NoDup_singleton.
      * intros k Hk. apply in_app_or in Hk as [Hk | [<- | []]].
        -- destruct (Hdom k Hk) as [v Hv].
           exists v. rewrite lookup_insert_ne; [exact Hv | congruence].
        -- eexists. apply lookup_insert_eq.
  - rewrite (feature_1_row_no_title _ _ Htitle). now split.
Qed.

Lemma feature_1_rows_inv rows st :
  run1_inv st -> run1_inv (snd (feature_1_rows server st rows)).
Proof.
  revert st. induction rows as [|row rows IH]; intros st Hinv; [exact Hinv|].
  simpl. pose proof (feature_1_row_inv st row Hinv) as H.
  destruct (feature_1_row server st row) as [out st'].
  specialize (IH st' H). now destruct (feature_1_rows server st' rows).
Qed.

Lemma run_feature_1_inv log rows : run1_inv (snd (run_feature_1 server log rows)).
Proof.
  apply feature_1_rows_inv. split; simpl; [apply NoDup_nil_2 | intros k []].
Qed.

End CacheFacts.

Section FirstResolution.

Variable server : Server.

Lemma feature_1_row_origin st row k :
  is_Some (isbn_cache (snd (feature_1_row server st row)) !! k) ->
  is_Some (isbn_cache st !! k) \/ k = cache_key_of row.
Proof.
  destruct (Py.truthy (cell_text (col1_title row))) eqn:Htitle.
  - destruct (isbn_cache st !! cache_key_of row) as [w|] eqn:E.
    + rewrite (feature_1_row_hit _ _ _ _ Htitle E). now left.
    + rewrite (feature_1_row_miss _ _ _ Htitle E).
      set (r := get_isbn13_from_title_author_pub _ _ _ _ _ _ _). clearbody r.
      cbv zeta. cbn [snd isbn_cache]. rewrite lookup_insert. case_decide.
      * now right.
      * now left.
  - rewrite (feature_1_row_no_title _ _ _ Htitle). now left.
Qed.

Lemma feature_1_rows_origin rows st k :
  is_Some (isbn_cache (snd (feature_1_rows server st rows)) !! k) ->
  is_Some (isbn_cache st !! k) \/ exists row, In row rows /\ k = cache_key_of row.
Proof.
  revert st. induction rows as [|row rows IH]; intros st; [now left|].
  simpl. pose proof (feature_1_row_origin st row k) as Hrow.
  destruct (feature_1_row server st row) as [out st']. cbn [snd] in Hrow.
  specialize (IH st'). destruct (feature_1_rows server st' rows) as [outs st''].
  cbn [snd] in *. intros H. destruct (IH H) as [H' | [row' [Hin E]]].
  - destruct (Hrow H') as [H0 | E]; [now left|].
    right. exists row. split; [now left | exact E].
  - right. exists row'. split; [now right | exact E].
Qed.

Lemma feature_1_row_resolved_grows st row :
  exists l, resolved (snd (feature_1_row server st row)) = resolved st ++ l.
Proof.
  destruct (Py.truthy (cell_text (col1_title row))) eqn:Htitle.
  - destruct (isbn_cache st !! cache_key_of row) as [w|] eqn:E.
    + rewrite (feature_1_row_hit _ _ _ _ Htitle E). exists []. now rewrite app_nil_r.
    + rewrite (feature_1_row_miss _ _ _ Htitle E). now exists [cache_key_of row].
  - rewrite (feature_1_row_no_title _ _ _ Htitle). exists []. now rewrite app_nil_r.
Qed.

Lemma feature_1_rows_resolved_grows rows st :
  exists l, resolved (snd (feature_1_rows server st rows)) = resolved st ++ l.
Proof.
  revert st. induction rows as [|row rows IH]; intros st.
  - exists []. simpl. now rewrite app_nil_r.
  - simpl. destruct (feature_1_row_resolved_grows st row) as [l1 E1].
    destruct (feature_1_row server st row) as [out st']. cbn [snd] in E1.
    destruct (IH st') as [l2 E2].
    destruct (feature_1_rows server st' rows) as [outs st'']. cbn [snd] in *.
    exists (l1 ++ l2). now rewrite E2, E1, app_assoc.
Qed.

Lemma feature_1_rows_snd_app rows1 rows2 st :
  snd (feature_1_rows server st (rows1 ++ rows2))
  = snd (feature_1_rows server (snd (feature_1_rows server st rows1)) rows2).
Proof. now rewrite feature_1_rows_app. Qed.

Lemma feature_1_rows_cons_snd row rows st :
  snd (feature_1_rows server st (row :: rows))
  = snd (feature_1_rows server (snd (feature_1_row server st row)) rows).
Proof.
  simpl. destruct (feature_1_row server st row) as [out st']. cbn [snd].
  now destruct (feature_1_rows server st' rows).
Qed.

(** In a run the first row with a title and a given key finds the cache
    without this key. *)
Lemma first_row_misses log before row1 :
  (forall row, In row before -> cache_key_of row <> cache_key_of row1) ->
  isbn_cache (snd (run_feature_1 server log before)) !! cache_key_of row1 = None.
Proof.
  intros Hfirst. unfold run_feature_1.
  destruct (isbn_cache (snd (feature_1_rows server _ before)) !! cache_key_of row1)
    as [v|] eqn:E; [|reflexivity].
  destruct (feature_1_rows_origin before _ (cache_key_of row1) (mk_is_Some _ _ E))
    as [[w Hw] | [row [Hin Hkey]]].
  - simpl in Hw. rewrite lookup_empty in Hw. discriminate.
  - now destruct (Hfirst row Hin).
Qed.

End FirstResolution.

(** C6.  In one run of the convert workflow, a row whose fingerprint (trimmed
    title, author and publisher, extracted year) equals that of an earlier row
    is given the value the earlier row was given, the not-found marker
    included, and processing it changes neither the cache nor the request log
    nor the list of resolver calls; over a whole run the resolver is called
    at most once for every fingerprint.  When the earlier row has a title and
    is the first of the run with this fingerprint, the resolver is executed
    for it, on the request log as it stands, its outcome (absence included) is
    stored in the cache under the fingerprint and is still there when the
    later row is reached, the later row is given that outcome, and the list
    of resolver calls of the run holds the fingerprint exactly once. *)
Theorem resolver_runs_once_per_fingerprint
    (server : Server) (log : list string) (before : list Row1) (row1 : Row1)
    (between : list Row1) (row2 : Row1) :
  cache_key_of row1 = cache_key_of row2 ->
  (exists out1,
      fst (run_feature_1 server log (before ++ row1 :: between)) !! length before
        = Some out1
      /\ feature_1_row server
           (snd (run_feature_1 server log (before ++ row1 :: between))) row2
         = (out1, snd (run_feature_1 server log (before ++ row1 :: between))))
  /\ (forall rows, NoDup (resolved (snd (run_feature_1 server log rows))))
  /\ (Py.truthy (cell_text (col1_title row1)) = true ->
      (forall row, In row before -> cache_key_of row <> cache_key_of row1) ->
      let st0 := snd (run_feature_1 server log before) in
      let r :=
        get_isbn13_from_title_author_pub server
          (cell_text (col1_title row1)) (cell_text (col1_author row1))
          (cell_text (col1_publisher row1)) (extract_year (col1_pub_year row1))
          default_max_retries (log1 st0) in
      feature_1_row server st0 row1
      = (isbn_cell (fst r),
         {| isbn_cache := <[cache_key_of row1 := fst r]> (isbn_cache st0);
            log1 := snd r;
            resolved := resolved st0 ++ [cache_key_of row1] |})
      /\ isbn_cache (snd (run_feature_1 server log (before ++ row1 :: between)))
           !! cache_key_of row1 = Some (fst r)
      /\ feature_1_row server
           (snd (run_feature_1 server log (before ++ row1 :: between))) row2
         = (isbn_cell (fst r), snd (run_feature_1 server log (before ++ row1 :: between)))
      /\ exists l1 l2,
           resolved (snd (run_feature_1 server log
                            ((before ++ row1 :: between) ++ [row2])))
             = l1 ++ cache_key_of row1 :: l2
           /\ ~ In (cache_key_of row1) l1 /\ ~ In (cache_key_of row1) l2).
Proof.
  intros Hkey.
  assert (cell_text (col1_title row1) = cell_text (col1_title row2)) as Htitle
    by (unfold cache_key_of in Hkey; congruence).
  split; [|split; [intros rows; apply run_feature_1_inv|]].
  - unfold run_feature_1. rewrite feature_1_rows_app.
    set (init := {| isbn_cache := ∅; log1 := log; resolved := [] |}).
    pose proof (feature_1_rows_length server before init) as Hlen.
    set (st0 := snd (feature_1_rows server init before)).
    simpl feature_1_rows.
    pose proof (feature_1_row_stores server st0 row1) as Hstores.
    pose proof (feature_1_row_no_title server st0 row1) as Hnone.
    destruct (feature_1_row server st0 row1) as [out1 st1].
    pose proof (fun k v => feature_1_rows_keeps server between st1 k v) as Hkeeps.
    destruct (feature_1_rows server st1 between) as [outs st2].
    exists out1. cbn [fst snd] in *. split.
    + now apply list_lookup_middle.
    + destruct (Py.truthy (cell_text (col1_title row1))) eqn:E.
      * destruct (Hstores eq_refl) as [v [Hv ->]].
        apply feature_1_row_hit; [now rewrite <- Htitle|].
        rewrite <- Hkey. now apply Hkeeps.
      * injection (Hnone eq_refl) as -> ->.
        apply feature_1_row_no_title. now rewrite <- Htitle.
  - intros Htruthy Hfirst st0 r.
    pose proof (first_row_misses server log before row1 Hfirst) as Hmiss.
    fold st0 in Hmiss.
    pose proof (feature_1_row_miss server st0 row1 Htruthy Hmiss) as Hrow1.
    cbv zeta in Hrow1. fold r in Hrow1.
    assert (snd (run_feature_1 server log (before ++ row1 :: between))
            = snd (feature_1_rows server (snd (feature_1_row server st0 row1)) between))
      as Hprefix.
    { unfold run_feature_1. now rewrite feature_1_rows_snd_app, feature_1_rows_cons_snd. }
    assert (isbn_cache (snd (run_feature_1 server log (before ++ row1 :: between)))
              !! cache_key_of row1 = Some (fst r)) as Hstored.
    { rewrite Hprefix. apply feature_1_rows_keeps. rewrite Hrow1. cbn [snd isbn_cache].
      apply lookup_insert_eq. }
    assert (feature_1_row server
              (snd (run_feature_1 server log (before ++ row1 :: between))) row2
            = (isbn_cell (fst r), snd (run_feature_1 server log (before ++ row1 :: between))))
      as Hrow2.
    { apply feature_1_row_hit; [now rewrite <- Htitle | now rewrite <- Hkey]. }
    split; [exact Hrow1|]. split; [exact Hstored|]. split; [exact Hrow2|].
    assert (resolved (snd (run_feature_1 server log ((before ++ row1 :: between) ++ [row2])))
            = resolved (snd (run_feature_1 server log (before ++ row1 :: between))))
      as Hlast.
    { unfold run_feature_1 at 1. rewrite feature_1_rows_snd_app, feature_1_rows_cons_snd.
      fold (run_feature_1 server log (before ++ row1 :: between)). now rewrite Hrow2. }
    destruct (feature_1_rows_resolved_grows server between
                (snd (feature_1_row server st0 row1))) as [l2 Hgrow].
    rewrite <- Hprefix, Hrow1 in Hgrow. cbn [snd resolved] in Hgrow.
    rewrite <- app_assoc in Hgrow. cbn [app] in Hgrow.
    exists (resolved st0), l2. rewrite Hlast. split; [exact Hgrow|].
    pose proof (proj1 (run_feature_1_inv server log (before ++ row1 :: between))) as Hnodup.
    rewrite Hgrow in Hnodup. apply NoDup_app in Hnodup as (_ & Hdisjoint & Hrest).
    apply NoDup_cons in Hrest as [Hnotin _]. split; intros Hin.
    + apply (Hdisjoint (cache_key_of row1)); [now apply list_elem_of_In | constructor].
    + now apply Hnotin, list_elem_of_In.
Qed.

Lemma resolver_runs_once_per_fingerprint_witness :
  feature_1_row (always (Http 200 [other_item]))
    (snd (run_feature_1 (always (Http 200 [other_item])) [] [])) row_a
  = ("9791234567890",
     {| isbn_cache := <[cache_key_of row_a := Some "9791234567890"]> ∅;
        log1 := [search_url "Foo   2021"];
        resolved := [cache_key_of row_a] |})
  /\ feature_1_row (always (Http 200 [other_item]))
       (snd (run_feature_1 (always (Http 200 [other_item])) [] ([] ++ row_a :: [])))
       row_b
     = ("9791234567890",
        snd (run_feature_1 (always (Http 200 [other_item])) [] ([] ++ row_a :: []))).
Proof.
  destruct (proj2 (proj2 (resolver_runs_once_per_fingerprint
                            (always (Http 200 [other_item])) [] [] row_a [] row_b eq_refl))
              eq_refl (fun row (H : In row []) => match H with end))
    as (H1 & _ & H2 & _).
  split; [exact H1 | exact H2].
Defined.

(** ** The reconciliation comparator *)

Lemma mismatch_list_of_fields
    (original_title original_author original_publisher original_price
       original_pubdate : string) (book_info : BookInfo) :
  mismatch_list_of original_title original_author original_publisher original_price
    original_pubdate book_info
  = map fst (List.filter (fun field => snd field)
               (compared_fields original_title original_author original_publisher
                  original_price original_pubdate book_info)).
Proof.
  unfold mismatch_list_of, compared_fields, contains_either.
  rewrite !negb_orb.
  destruct (Py.truthy (Py.lower original_title) && _);
    destruct (Py.truthy (Py.lower original_author) && _);
    destruct (Py.truthy (Py.lower original_publisher) && _);
    destruct (Py.truthy (extract_year (Some original_pubdate)) && _);
    destruct (Py.truthy original_price && _); reflexivity.
Qed.

(** C7.  For a row whose ISBN13 cell is empty or shorter than 13 characters
    the verdict is the cannot-search label and no compared field is listed as
    mismatched: the column of mismatched items holds only the fixed note
    ISBN13 미입력, in which none of the five field labels occurs.  No lookup
    is made for the row: the memo table and the request log are unchanged.
    (The length is that of the UTF-8 text, the number of characters of an
    ASCII identifier.) *)
Theorem short_isbn13_cannot_search (server : Server) (st : Run2) (row : Row2) :
  Py.truthy (cell_text (col2_isbn13 row)) = false
  \/ String.length (cell_text (col2_isbn13 row)) < 13 ->
  feature_2_row server st row = ((verdict_cannot_search, note_no_isbn13), st)
  /\ forall label,
       In label field_labels ->
       Py.contains label (snd (fst (feature_2_row server st row))) = false.
Proof.
  intros H.
  assert (feature_2_row server st row = ((verdict_cannot_search, note_no_isbn13), st)) as E.
  { unfold feature_2_row.
    replace (negb (Py.truthy (cell_text (col2_isbn13 row)))
             || (String.length (cell_text (col2_isbn13 row)) <? 13)) with true;
      [reflexivity|].
    symmetry. apply orb_true_iff. destruct H as [H | H].
    - left. now rewrite H.
    - right. now apply Nat.ltb_lt. }
  split; [exact E|]. rewrite E. cbn [fst snd].
  intros label [<- | [<- | [<- | [<- | [<- | []]]]]]; reflexivity.
Qed.

Lemma short_isbn13_cannot_search_witness :
  feature_2_row (always RequestException) fresh row_short
  = ((verdict_cannot_search, note_no_isbn13), fresh).
Proof.
  apply (short_isbn13_cannot_search (always RequestException) fresh row_short).
  right. vm_compute. lia.
Defined.

Lemma verdict_of_cases (l : list string) :
  verdict_of l
  = match l with
    | [] => (verdict_match, "")
    | _ => (verdict_mismatch, join "," l)
    end.
Proof. now destruct l. Qed.

Lemma no_field_flagged (fields : list (string * bool)) :
  map fst (List.filter (fun field => snd field) fields) = []
  <-> forall field, In field fields -> snd field = false.
Proof.
  induction fields as [|[label flag] fields IH]; simpl.
  - split; [intros _ f [] | reflexivity].
  - destruct flag; simpl.
    + split; [discriminate | intros H; now specialize (H (label, true) (or_introl eq_refl))].
    + rewrite IH. split.
      * intros H f [<- | Hf]; [reflexivity | now apply H].
      * intros H f Hf. apply H. now right.
Qed.

(** C8.  When the canonical record is fetched, the verdict is the match
    label, with an empty column of mismatched items, exactly when none of the
    five compared fields is flagged; otherwise it is the mismatch label with
    the labels of the flagged fields joined by commas in the fixed order title
    (도서명), author (저자), publisher (출판사), year (출간연도), price (정가).
    The price is flagged when the trimmed original price is not empty and is
    not equal to the fetched price.  For the original title Foo and price
    10000 against the fetched title Foo Bar and price 12000 the verdict is a
    mismatch that lists the price alone. *)
Theorem verdict_lists_flagged_fields :
  (forall (server : Server) (st : Run2) (row : Row2) (book_info : BookInfo) (st' : Run2),
      negb (Py.truthy (cell_text (col2_isbn13 row)))
      || (String.length (cell_text (col2_isbn13 row)) <? 13) = false ->
      get_book_info_by_isbn13 server st (cell_text (col2_isbn13 row))
        = (Some book_info, st') ->
      let fields :=
        compared_fields (cell_text (col2_title row)) (cell_text (col2_author row))
          (cell_text (col2_publisher row)) (cell_text (col2_price row))
          (cell_text (col2_pubdate row)) book_info in
      let flagged := map fst (List.filter (fun field => snd field) fields) in
      feature_2_row server st row
      = (match flagged with
         | [] => (verdict_match, "")
         | _ => (verdict_mismatch, join "," flagged)
         end, st')
      /\ (flagged = [] <-> forall field, In field fields -> snd field = false)
      /\ map fst fields
         = [label_title; label_author; label_publisher; label_year; label_price]
      /\ (In (label_price, true) fields
          <-> cell_text (col2_price row) <> ""
              /\ cell_text (col2_price row) <> bi_price book_info))
  /\ fst (feature_2_row (always (Http 200 [item_foo_bar])) fresh row_foo)
     = (verdict_mismatch, label_price).
Proof.
  split; [|reflexivity].
  intros server st row book_info st' Hisbn Hfetch fields flagged.
  split; [|split; [|split]].
  - unfold feature_2_row. rewrite Hisbn, Hfetch.
    now rewrite verdict_of_cases, mismatch_list_of_fields.
  - apply no_field_flagged.
  - reflexivity.
  - subst fields. unfold compared_fields. simpl In. split.
    + intros [H | [H | [H | [H | [H | []]]]]]; try discriminate.
      injection H as H. apply andb_true_iff in H as [Hne Hdiff].
      apply negb_true_iff, String.eqb_neq in Hdiff.
      split; [|exact Hdiff]. intros E. rewrite E in Hne. discriminate.
    + intros [Hne Hdiff]. do 4 right. left. f_equal.
      apply andb_true_iff. split.
      * now destruct (cell_text (col2_price row)).
      * now apply negb_true_iff, String.eqb_neq.
Qed.

Lemma verdict_lists_flagged_fields_witness :
  feature_2_row (always (Http 200 [item_foo_bar])) fresh row_foo
  = ((verdict_mismatch, label_price),
     snd (get_book_info_by_isbn13 (always (Http 200 [item_foo_bar])) fresh "9788901234567")).
Proof.
  exact (proj1 (proj1 verdict_lists_flagged_fields
                  (always (Http 200 [item_foo_bar])) fresh row_foo
                  (book_info_of_item item_foo_bar)
                  (snd (get_book_info_by_isbn13 (always (Http 200 [item_foo_bar])) fresh
                          "9788901234567"))
                  eq_refl eq_refl)).
Defined.

Lemma feature_2_row_isbn10 (server : Server) (st : Run2) (row row' : Row2) :
  same_except_isbn10 row row' ->
  feature_2_row server st row = feature_2_row server st row'.
Proof.
  destruct row, row'. unfold same_except_isbn10. simpl.
  intros (-> & -> & -> & -> & -> & ->). reflexivity.
Qed.

(** C10.  The output of the verify workflow does not depend on the ISBN10
    column: two tables whose rows agree pairwise on every other column get
    the same verdict labels and the same columns of mismatched items (and
    the same lookups are made). *)
Theorem verdict_independent_of_isbn10
    (server : Server) (st : Run2) (rows rows' : list Row2) :
  Forall2 same_except_isbn10 rows rows' ->
  run_feature_2 server st rows = run_feature_2 server st rows'.
Proof.
  unfold run_feature_2. intros H. revert st.
  induction H as [|row row' rows rows' Hrow _ IH]; intros st; [reflexivity|].
  simpl. rewrite (feature_2_row_isbn10 server st row row' Hrow).
  destruct (feature_2_row server st row') as [out st']. now rewrite IH.
Qed.

Lemma verdict_independent_of_isbn10_witness :
  run_feature_2 (always (Http 200 [item_foo_bar])) fresh [row_foo]
  = run_feature_2 (always (Http 200 [item_foo_bar])) fresh [row_foo'].
Proof.
  apply (verdict_independent_of_isbn10 (always (Http 200 [item_foo_bar])) fresh
           [row_foo] [row_foo']).
  repeat constructor.
Defined.


(** * Further properties *)

(** ** White space *)

Section SpaceFacts.

Implicit Types s t l r : string.

Lemma lstrip_all_space r : all_space r = true -> Py.lstrip r = "".
Proof.
  induction r as [|c r IH]; [reflexivity|]. simpl.
  rewrite andb_true_iff. intros [Hc Hr]. now rewrite Hc, IH.
Qed.

Lemma rstrip_all_space r : all_space r = true -> Py.rstrip r = "".
Proof.
  induction r as [|c r IH]; [reflexivity|]. simpl.
  rewrite andb_true_iff. intros [Hc Hr]. now rewrite IH, Hc.
Qed.

Lemma rstrip_app_space s r : all_space r = true -> Py.rstrip (s +:+ r) = Py.rstrip s.
Proof.
  intros Hr. induction s as [|c s IH].
  - rewrite append_nil. now apply rstrip_all_space.
  - rewrite append_cons. simpl. now rewrite IH.
Qed.

Lemma lstrip_app_space s r :
  all_space r = true -> Py.rstrip (Py.lstrip (s +:+ r)) = Py.rstrip (Py.lstrip s).
Proof.
  intros Hr. induction s as [|c s IH].
  - rewrite append_nil, lstrip_all_space by exact Hr. reflexivity.
  - rewrite append_cons. simpl Py.lstrip. destruct (Py.is_space c); [exact IH|].
    rewrite <- append_cons. now apply rstrip_app_space.
Qed.

Lemma lstrip_space_app l s : all_space l = true -> Py.lstrip (l +:+ s) = Py.lstrip s.
Proof.
  induction l as [|c l IH]; [reflexivity|]. simpl all_space.
  rewrite andb_true_iff. intros [Hc Hl]. rewrite append_cons. simpl.
  now rewrite Hc, IH.
Qed.

(** [strip] does not see the white space around a string. *)
Lemma strip_padding l s r :
  all_space l = true -> all_space r = true -> Py.strip (l +:+ s +:+ r) = Py.strip s.
Proof.
  intros Hl Hr. unfold Py.strip. rewrite lstrip_space_app by exact Hl.
  now apply lstrip_app_space.
Qed.

Lemma lstrip_head s :
  Py.lstrip s = "" \/ exists c t, Py.lstrip s = String c t /\ Py.is_space c = false.
Proof.
  induction s as [|c s IH]; [now left|]. simpl.
  destruct (Py.is_space c) eqn:Hc; [exact IH|]. right. now exists c, s.
Qed.

Lemma rstrip_head c t :
  Py.is_space c = false -> exists t', Py.rstrip (String c t) = String c t'.
Proof.
  intros Hc. simpl. destruct (Py.rstrip t) as [|b u].
  - rewrite Hc. now exists "".
  - now exists (String b u).
Qed.

Lemma rstrip_cons c s :
  Py.rstrip (String c s)
  = match Py.rstrip s with
    | "" => if Py.is_space c then "" else String c ""
    | String x y => String c (String x y)
    end.
Proof. reflexivity. Qed.

Lemma rstrip_idempotent s : Py.rstrip (Py.rstrip s) = Py.rstrip s.
Proof.
  induction s as [|c s IH]; [reflexivity|]. rewrite rstrip_cons.
  destruct (Py.rstrip s) as [|b u] eqn:E.
  - destruct (Py.is_space c) eqn:Hc; [reflexivity|]. simpl. now rewrite Hc.
  - rewrite rstrip_cons. now rewrite IH.
Qed.

Lemma strip_idempotent s : Py.strip (Py.strip s) = Py.strip s.
Proof.
  unfold Py.strip. destruct (lstrip_head s) as [E | [c [t [E Hc]]]]; rewrite E.
  - reflexivity.
  - destruct (rstrip_head c t Hc) as [t' E']. rewrite E'. simpl Py.lstrip.
    rewrite Hc, <- E'. apply rstrip_idempotent.
Qed.

End SpaceFacts.

(** ** The identifier extractor *)

Section SplitFacts.

Implicit Types s t a b sep rest : string.









Lemma is_isbn13_shape p :
  is_isbn13 p = true <-> String.length p = 13 /\ Py.all_digits p = true.
Proof.
  unfold is_isbn13. rewrite andb_true_iff, Nat.eqb_eq.
  destruct p as [|c p]; [split; intros [H _]; discriminate|]. reflexivity.
Qed.


Lemma find_first {A} (f : A -> bool) (l : list A) x :
  List.find f l = Some x ->
  f x = true
  /\ exists before after,
       l = before ++ x :: after /\ forallb (fun y => negb (f y)) before = true.
Proof.
  induction l as [|y l IH]; [discriminate|]. simpl.
  destruct (f y) eqn:E.
  - intros [= <-]. split; [exact E|]. now exists [], l.
  - intros H. destruct (IH H) as [Hx (before & after & -> & Hb)].
    split; [exact Hx|]. exists (y :: before), after. split; [reflexivity|].
    simpl. now rewrite E.
Qed.

End SplitFacts.

(** X1.  On an input of ASCII characters the identifier extractor returns the
    first white-space-delimited token that has exactly thirteen characters,
    all decimal digits; it returns absence when no token is of this kind, in
    particular on the empty string.  (Outside ASCII, [str.isdigit] accepts
    further digit characters, which this statement leaves out.) *)
Theorem extract_isbn13_first_token (isbn_str : string) :
  is_ascii isbn_str = true ->
  match extract_isbn13 isbn_str with
  | Some p =>
      String.length p = 13 /\ Py.all_digits p = true
      /\ exists before after,
           Py.split isbn_str = before ++ p :: after
           /\ forallb (fun t => negb (is_isbn13 t)) before = true
  | None => forall t, In t (Py.split isbn_str) -> is_isbn13 t = false
  end.
Proof.
  intros _. unfold extract_isbn13. destruct isbn_str as [|c s]; [intros t []|].
  cbn [Py.truthy negb].
  change (fun p => (String.length p =? 13) && Py.isdigit p) with is_isbn13.
  destruct (List.find is_isbn13 (Py.split (String c s))) as [p|] eqn:E.
  - apply find_first in E as [Hp Hsplit]. apply is_isbn13_shape in Hp as [Hlen Hdig].
    now repeat split.
  - intros t Ht. exact (find_none _ _ E t Ht).
Qed.

Lemma extract_isbn13_first_token_witness :
  match extract_isbn13 "8901234567 9788901234567" with
  | Some p =>
      String.length p = 13 /\ Py.all_digits p = true
      /\ exists before after,
           Py.split "8901234567 9788901234567" = before ++ p :: after
           /\ forallb (fun t => negb (is_isbn13 t)) before = true
  | None => forall t, In t (Py.split "8901234567 9788901234567") -> is_isbn13 t = false
  end.
Proof.
  exact (extract_isbn13_first_token "8901234567 9788901234567" eq_refl).
Defined.



(** ** The year extractor, again *)

Lemma search_d4_window (y : string) : window4 y -> Py.search_d4 y = Some y.
Proof.
  intros [Hlen Hdig]. destruct y as [|a [|b [|c [|d [|e y]]]]]; try discriminate.
  simpl in Hdig. rewrite !andb_true_iff in Hdig. destruct Hdig as (Ha & Hb & Hc & Hd & _).
  simpl. now rewrite Ha, Hb, Hc, Hd.
Qed.

(** X3.  The extracted year is empty or consists of four decimal digits, and
    extracting a year from it gives it back. *)
Theorem extract_year_fixed_point (pubdate_ : option string) :
  (extract_year pubdate_ = "" \/ window4 (extract_year pubdate_))
  /\ extract_year (Some (extract_year pubdate_)) = extract_year pubdate_.
Proof.
  destruct pubdate_ as [s|]; [|split; [now left | reflexivity]].
  rewrite !extract_year_search. pose proof (search_d4_spec s) as H.
  destruct (Py.search_d4 s) as [y|]; [|split; [now left | reflexivity]].
  destruct H as [pre [[Hw _] _]]. split; [now right|].
  now rewrite (search_d4_window y Hw).
Qed.

(** ** The resolver, again *)

Section ResolverFacts.

Variable server : Server.
Variables title_ author_ publisher_ pub_year : string.

Local Abbreviation scan := (scan_items title_ author_ publisher_ pub_year).
Local Abbreviation loop := (query_loop server title_ author_ publisher_ pub_year).
Local Abbreviation run := (cascade server title_ author_ publisher_ pub_year).

Lemma query_loop_failure u r max_retries log :
  r < max_retries ->
  throttled server log u r = true ->
  hard_failure (server (log ++ repeat u r) u) = true ->
  loop u max_retries log = (Returned None, log ++ repeat u (S r)).
Proof.
  intros Hr Hthrottled Hfail.
  replace max_retries with (r + S (max_retries - S r)) by lia.
  rewrite query_loop_throttled by exact Hthrottled.
  rewrite query_loop_S, log_repeat_snoc.
  destruct (server (log ++ repeat u r) u) as [code items|]; [|reflexivity].
  simpl in Hfail. apply andb_true_iff in Hfail as [H200 H429].
  apply negb_true_iff in H200, H429. now rewrite H200, H429.
Qed.

Lemma extract_isbn13_shape isbn_str : isbn13_or_none (extract_isbn13 isbn_str).
Proof.
  unfold extract_isbn13. destruct (negb (Py.truthy isbn_str)); [exact I|].
  destruct (List.find _ _) as [p|] eqn:E; [|exact I].
  apply find_some in E as [_ E]. now apply is_isbn13_shape.
Qed.

Lemma scan_items_shape items : isbn13_or_none (scan items).
Proof.
  induction items as [|item items IH]; [exact I|]. simpl.
  destruct (item_matches title_ author_ publisher_ pub_year item); [|exact IH].
  pose proof (extract_isbn13_shape (isbn item)) as H.
  destruct (extract_isbn13 (isbn item)) as [p|]; [|exact IH].
  now destruct (Py.truthy p).
Qed.

Lemma query_loop_shape u remaining log :
  match fst (loop u remaining log) with
  | Returned isbn13 => isbn13_or_none isbn13
  | NextQuery => True
  end.
Proof.
  revert log. induction remaining as [|k IH]; intros log; [exact I|].
  rewrite query_loop_S. destruct (server log u) as [code items|]; [|exact I].
  destruct (code =? 200).
  - destruct items as [|first_item others]; [exact I|].
    pose proof (scan_items_shape (first_item :: others)) as H.
    destruct (scan (first_item :: others)) as [p|]; [exact H|].
    apply extract_isbn13_shape.
  - destruct (code =? 429); [apply IH | exact I].
Qed.

Lemma cascade_shape max_retries queries log :
  isbn13_or_none (fst (run max_retries queries log)).
Proof.
  revert log. induction queries as [|query rest IH]; intros log; [exact I|].
  simpl. pose proof (query_loop_shape (search_url query) max_retries log) as H.
  destruct (loop (search_url query) max_retries log) as [[v|] log']; [exact H | apply IH].
Qed.

Lemma query_loop_requests u remaining log :
  exists k, k <= remaining /\ snd (loop u remaining log) = log ++ repeat u k.
Proof.
  revert log. induction remaining as [|n IH]; intros log.
  - exists 0. split; [lia | simpl; now rewrite app_nil_r].
  - rewrite query_loop_S.
    assert (exists k, k <= S n /\ log ++ [u] = log ++ repeat u k) as Hone
      by (exists 1; split; [lia | reflexivity]).
    destruct (server log u) as [code items|]; [|exact Hone].
    destruct (code =? 200).
    + destruct items as [|first_item others]; [exact Hone|].
      now destruct (scan (first_item :: others)).
    + destruct (code =? 429); [|exact Hone].
      destruct (IH (log ++ [u])) as [k [Hk E]]. exists (S k).
      split; [lia | now rewrite E, log_repeat_S].
Qed.

Lemma cascade_requests max_retries queries log :
  exists requests,
    snd (run max_retries queries log) = log ++ requests
    /\ Forall (fun u => In u (map search_url queries)) requests
    /\ length requests <= length queries * max_retries.
Proof.
  revert log. induction queries as [|query rest IH]; intros log.
  - exists []. simpl. rewrite app_nil_r. repeat split; [constructor | lia].
  - simpl cascade.
    destruct (query_loop_requests (search_url query) max_retries log) as [k [Hk E]].
    assert (Forall (fun u => In u (map search_url (query :: rest)))
              (repeat (search_url query) k)) as Hq.
    { apply List.Forall_forall. intros u Hu. apply repeat_spec in Hu. subst u. now left. }
    destruct (loop (search_url query) max_retries log) as [[v|] log']; simpl in E; subst log'.
    + exists (repeat (search_url query) k). rewrite repeat_length.
      repeat split; [exact Hq | simpl; lia].
    + destruct (IH (log ++ repeat (search_url query) k)) as (requests & E & Hall & Hlen).
      exists (repeat (search_url query) k ++ requests).
      rewrite E, app_assoc, length_app, repeat_length.
      repeat split; [|simpl; lia].
      apply Forall_app. split; [exact Hq|].
      revert Hall. apply List.Forall_impl. intros u Hu. now right.
Qed.

Lemma always_throttled u r log :
  (forall l, exists items, server l u = Http 429 items) ->
  throttled server log u r = true.
Proof.
  intros Hbusy. revert log. induction r as [|r IH]; intros log; [reflexivity|].
  simpl. destruct (Hbusy log) as [items ->]. now rewrite IH.
Qed.

Lemma cascade_always_throttled max_retries queries log :
  (forall l query, In query queries -> exists items, server l (search_url query) = Http 429 items) ->
  run max_retries queries log
  = (None, log ++ flat_map (fun query => repeat (search_url query) max_retries) queries).
Proof.
  revert log. induction queries as [|query rest IH]; intros log Hbusy.
  - simpl. now rewrite app_nil_r.
  - rewrite (cascade_next server title_ author_ publisher_ pub_year max_retries query rest log
               (log ++ repeat (search_url query) max_retries)).
    + rewrite IH by (intros l q Hq; apply Hbusy; now right).
      simpl. now rewrite app_assoc.
    + apply query_loop_exhausted, always_throttled.
      intros l. apply Hbusy. now left.
Qed.

End ResolverFacts.

(** X4.  A hard failure aborts the resolution: when the answer to a query of
    the cascade (after fewer than [max_retries] rate-limited attempts) is a
    raised request exception or a status other than 200 and 429, the resolver
    returns absence at once and sends no request for the remaining queries. *)
Theorem cascade_aborts_on_hard_failure
    (server : Server) (title_ author_ publisher_ pub_year : string)
    (max_retries : nat) (query : string) (rest log : list string) (r : nat) :
  r < max_retries ->
  throttled server log (search_url query) r = true ->
  hard_failure (server (log ++ repeat (search_url query) r) (search_url query)) = true ->
  cascade server title_ author_ publisher_ pub_year max_retries (query :: rest) log
  = (None, log ++ repeat (search_url query) (S r)).
Proof.
  intros Hr Hthrottled Hfail. apply cascade_returned.
  now apply query_loop_failure.
Qed.

Lemma cascade_aborts_on_hard_failure_witness :
  cascade failing_server "Foo" "" "" "" 5 (query_combinations "Foo" "" "" "") []
  = (None, [] ++ repeat (search_url "Foo   ") 1).
Proof.
  exact (cascade_aborts_on_hard_failure failing_server "Foo" "" "" "" 5
           "Foo   " ["Foo "; "Foo "; "Foo"] [] 0 (Nat.lt_0_succ 4) eq_refl eq_refl).
Defined.

(** X5.  Whatever the server answers, the resolver only appends to the
    request log, every request it sends is for one of its four queries, and it
    sends at most [max_retries] requests per query, so at most
    [4 * max_retries] in all. *)
Theorem resolver_requests_bounded
    (server : Server) (title_ author_ publisher_ pub_year : string)
    (max_retries : nat) (log : list string) :
  exists requests,
    snd (get_isbn13_from_title_author_pub server title_ author_ publisher_ pub_year
           max_retries log) = log ++ requests
    /\ Forall (fun u =>
                 In u (map search_url
                         (query_combinations title_ author_ publisher_ pub_year)))
         requests
    /\ length requests <= 4 * max_retries.
Proof.
  unfold get_isbn13_from_title_author_pub.
  destruct (cascade_requests server title_ author_ publisher_ pub_year max_retries
              (query_combinations title_ author_ publisher_ pub_year) log)
    as (requests & E & Hall & Hlen).
  exists requests. now repeat split.
Qed.

(** X6.  When the [isbn] fields of the items the server returns are ASCII,
    the resolver returns absence or a string of exactly thirteen decimal
    digits, whatever else the server answers. *)
Theorem resolver_result_is_isbn13_or_none
    (server : Server) (title_ author_ publisher_ pub_year : string)
    (max_retries : nat) (log : list string) :
  ascii_isbns server ->
  isbn13_or_none
    (fst (get_isbn13_from_title_author_pub server title_ author_ publisher_ pub_year
            max_retries log)).
Proof. intros _. apply cascade_shape. Qed.

Lemma ascii_isbns_always (status_code : nat) (items : list Item) :
  forallb (fun item => is_ascii (isbn item)) items = true ->
  ascii_isbns (always (Http status_code items)).
Proof.
  intros Hall l u code items' item [= <- <-] Hin.
  rewrite forallb_forall in Hall. now apply Hall.
Defined.

Lemma resolver_result_is_isbn13_or_none_witness :
  isbn13_or_none
    (fst (get_isbn13_from_title_author_pub (always (Http 200 [other_item]))
            "Foo" "" "" "" 5 [])).
Proof.
  exact (resolver_result_is_isbn13_or_none (always (Http 200 [other_item]))
           "Foo" "" "" "" 5 [] (ascii_isbns_always 200 [other_item] eq_refl)).
Defined.

(** X7.  When the tightest query is answered with zero items and the second
    query (title and author) with a list whose first usable item carries an
    identifier, the resolver returns that identifier after exactly these two
    requests: the third and fourth queries are not sent. *)
Theorem cascade_falls_back_to_title_author
    (server : Server) (title_ author_ publisher_ pub_year : string)
    (max_retries : nat) (log : list string)
    (before : list Item) (item : Item) (after : list Item) (isbn13 : string) :
  let u1 := search_url (title_ +:+ " " +:+ author_ +:+ " " +:+ publisher_ +:+ " " +:+ pub_year) in
  let u2 := search_url (title_ +:+ " " +:+ author_) in
  0 < max_retries ->
  server log u1 = Http 200 [] ->
  server (log ++ [u1]) u2 = Http 200 (before ++ item :: after) ->
  forallb (fun item => negb (usable title_ author_ publisher_ pub_year item)) before = true ->
  item_matches title_ author_ publisher_ pub_year item = true ->
  extract_isbn13 (isbn item) = Some isbn13 ->
  get_isbn13_from_title_author_pub server title_ author_ publisher_ pub_year max_retries log
  = (Some isbn13, log ++ [u1; u2]).
Proof.
  intros u1 u2 Hmax H1 H2 Hbefore Hitem Hisbn.
  unfold get_isbn13_from_title_author_pub, query_combinations.
  rewrite (cascade_zero_items server title_ author_ publisher_ pub_year max_retries
             _ _ log 0 Hmax eq_refl); [|simpl; rewrite app_nil_r; exact H1].
  rewrite (cascade_first_usable server title_ author_ publisher_ pub_year max_retries
             _ _ _ 0 before item after isbn13 Hmax eq_refl); try assumption.
  - simpl. now rewrite <- app_assoc.
  - simpl. rewrite app_nil_r. exact H2.
Qed.

Lemma cascade_falls_back_to_title_author_witness :
  get_isbn13_from_title_author_pub title_author_server "Foo" "Kim" "" "2021" 5 []
  = (Some "9788901234567",
     [] ++ [search_url ("Foo" +:+ " " +:+ "Kim" +:+ " " +:+ "" +:+ " " +:+ "2021");
            search_url ("Foo" +:+ " " +:+ "Kim")]).
Proof.
  exact (cascade_falls_back_to_title_author title_author_server "Foo" "Kim" "" "2021" 5 []
           [] (mkItem "<b>Foo</b>" "Kim" "Pub" "20210301" "10000" "8901234567 9788901234567")
           [] "9788901234567" (Nat.lt_0_succ 4) eq_refl eq_refl eq_refl eq_refl eq_refl).
Defined.

(** X8.  When the server answers every request with status 429, the resolver
    sends [max_retries] requests for each of its four queries, in the order of
    the queries, and returns absence. *)
Theorem resolver_rate_limited_throughout
    (server : Server) (title_ author_ publisher_ pub_year : string)
    (max_retries : nat) (log : list string) :
  (forall l u, exists items, server l u = Http 429 items) ->
  get_isbn13_from_title_author_pub server title_ author_ publisher_ pub_year max_retries log
  = (None,
     log ++ flat_map (fun query => repeat (search_url query) max_retries)
              (query_combinations title_ author_ publisher_ pub_year)).
Proof.
  intros Hbusy. unfold get_isbn13_from_title_author_pub.
  apply cascade_always_throttled. intros l query _. apply Hbusy.
Qed.

Lemma resolver_rate_limited_throughout_witness :
  get_isbn13_from_title_author_pub busy_server "Foo" "" "" "" 2 []
  = (None,
     [] ++ flat_map (fun query => repeat (search_url query) 2)
             (query_combinations "Foo" "" "" "")).
Proof.
  apply (resolver_rate_limited_throughout busy_server "Foo" "" "" "" 2 []).
  intros l u. exists []. reflexivity.
Defined.

(** ** The lookup by identifier, again *)

Section BookInfoFacts.

Variable server : Server.

Lemma book_info_loop_failure u r max_retries log :
  r < max_retries ->
  throttled server log u r = true ->
  hard_failure (server (log ++ repeat u r) u) = true ->
  book_info_loop server u max_retries log = (None, log ++ repeat u (S r)).
Proof.
  intros Hr Hthrottled Hfail.
  replace max_retries with (r + S (max_retries - S r)) by lia.
  rewrite book_info_loop_throttled by exact Hthrottled.
  rewrite book_info_loop_S, log_repeat_snoc.
  destruct (server (log ++ repeat u r) u) as [code items|]; [|reflexivity].
  simpl in Hfail. apply andb_true_iff in Hfail as [H200 H429].
  apply negb_true_iff in H200, H429. now rewrite H200, H429.
Qed.

Lemma book_info_loop_requests u remaining log :
  exists k, k <= remaining /\ snd (book_info_loop server u remaining log) = log ++ repeat u k.
Proof.
  revert log. induction remaining as [|n IH]; intros log.
  - exists 0. split; [lia | simpl; now rewrite app_nil_r].
  - rewrite book_info_loop_S.
    assert (exists k, k <= S n /\ log ++ [u] = log ++ repeat u k) as Hone
      by (exists 1; split; [lia | reflexivity]).
    destruct (server log u) as [code items|]; [|exact Hone].
    destruct (code =? 200); [now destruct items|].
    destruct (code =? 429); [|exact Hone].
    destruct (IH (log ++ [u])) as [k [Hk E]]. exists (S k).
    split; [lia | now rewrite E, log_repeat_S].
Qed.

Lemma book_info_loop_some u remaining log book_info :
  fst (book_info_loop server u remaining log) = Some book_info ->
  exists item, book_info = book_info_of_item item.
Proof.
  revert log. induction remaining as [|n IH]; intros log; [discriminate|].
  rewrite book_info_loop_S. destruct (server log u) as [code items|]; [|discriminate].
  destruct (code =? 200).
  - destruct items as [|item others]; [discriminate|]. intros [= <-]. now exists item.
  - destruct (code =? 429); [apply IH | discriminate].
Qed.

End BookInfoFacts.

(** X9.  The lookup by identifier retries while it is rate limited: after
    fewer than [max_retries] responses with status 429, a response with status
    200 and at least one item makes it return the first item, with the bold
    markup removed from the title and every field trimmed; the other items are
    not used, and one request was sent per attempt. *)
Theorem book_info_first_item_after_retries
    (server : Server) (isbn13 : string) (max_retries r : nat) (log : list string)
    (item : Item) (others : list Item) :
  r < max_retries ->
  throttled server log (isbn_url isbn13) r = true ->
  server (log ++ repeat (isbn_url isbn13) r) (isbn_url isbn13) = Http 200 (item :: others) ->
  get_book_info_by_isbn13_body server isbn13 max_retries log
  = (Some (book_info_of_item item), log ++ repeat (isbn_url isbn13) (S r)).
Proof.
  intros Hr Hthrottled Hanswer. unfold get_book_info_by_isbn13_body.
  now rewrite (book_info_loop_answer server _ r _ _ _ Hr Hthrottled Hanswer).
Qed.

Lemma book_info_first_item_after_retries_witness :
  get_book_info_by_isbn13_body (always (Http 200 [padded_item; other_item]))
    "9788901234567" 5 []
  = (Some (mkBookInfo "Foo Bar" "Kim" "Pub" "20210301" "12000" "8901234567 9788901234567"),
     [] ++ repeat (isbn_url "9788901234567") 1).
Proof.
  exact (book_info_first_item_after_retries
           (always (Http 200 [padded_item; other_item])) "9788901234567" 5 0 []
           padded_item [other_item] (Nat.lt_0_succ 4) eq_refl eq_refl).
Defined.

(** X10.  The lookup by identifier does not retry after a hard failure: a
    raised request exception or a status other than 200 and 429 makes it
    return [None] with no further request. *)
Theorem book_info_hard_failure_no_retry
    (server : Server) (isbn13 : string) (max_retries r : nat) (log : list string) :
  r < max_retries ->
  throttled server log (isbn_url isbn13) r = true ->
  hard_failure (server (log ++ repeat (isbn_url isbn13) r) (isbn_url isbn13)) = true ->
  get_book_info_by_isbn13_body server isbn13 max_retries log
  = (None, log ++ repeat (isbn_url isbn13) (S r)).
Proof.
  intros Hr Hthrottled Hfail. unfold get_book_info_by_isbn13_body.
  now apply book_info_loop_failure.
Qed.

Lemma book_info_hard_failure_no_retry_witness :
  get_book_info_by_isbn13_body (always RequestException) "9788901234567" 5 []
  = (None, [] ++ repeat (isbn_url "9788901234567") 1).
Proof.
  exact (book_info_hard_failure_no_retry (always RequestException) "9788901234567" 5 0 []
           (Nat.lt_0_succ 4) eq_refl eq_refl).
Defined.

(** X11.  Whatever the server answers, the lookup by identifier sends at most
    [max_retries] requests, all of them for the one URL of the identifier, and
    only appends them to the request log. *)
Theorem book_info_requests_bounded
    (server : Server) (isbn13 : string) (max_retries : nat) (log : list string) :
  exists k,
    k <= max_retries
    /\ snd (get_book_info_by_isbn13_body server isbn13 max_retries log)
       = log ++ repeat (isbn_url isbn13) k.
Proof. apply book_info_loop_requests. Qed.

(** X12.  Every field of a record returned by the lookup by identifier is
    trimmed: stripping it again changes nothing. *)
Theorem book_info_fields_trimmed
    (server : Server) (isbn13 : string) (max_retries : nat) (log : list string)
    (book_info : BookInfo) :
  fst (get_book_info_by_isbn13_body server isbn13 max_retries log) = Some book_info ->
  Py.strip (bi_title book_info) = bi_title book_info
  /\ Py.strip (bi_author book_info) = bi_author book_info
  /\ Py.strip (bi_publisher book_info) = bi_publisher book_info
  /\ Py.strip (bi_pubdate book_info) = bi_pubdate book_info
  /\ Py.strip (bi_price book_info) = bi_price book_info
  /\ Py.strip (bi_isbn book_info) = bi_isbn book_info.
Proof.
  intros H. apply book_info_loop_some in H as [item ->].
  unfold book_info_of_item. simpl. now rewrite !strip_idempotent.
Qed.

Lemma book_info_fields_trimmed_witness :
  Py.strip "Foo Bar" = "Foo Bar"
  /\ Py.strip "Kim" = "Kim"
  /\ Py.strip "Pub" = "Pub"
  /\ Py.strip "20210301" = "20210301"
  /\ Py.strip "12000" = "12000"
  /\ Py.strip "8901234567 9788901234567" = "8901234567 9788901234567".
Proof.
  exact (book_info_fields_trimmed (always (Http 200 [padded_item])) "9788901234567" 5 []
           (mkBookInfo "Foo Bar" "Kim" "Pub" "20210301" "12000" "8901234567 9788901234567")
           eq_refl).
Defined.

(** ** The convert workflow, again *)

Section ConvertFacts.

Variable server : Server.

Lemma resolver_shape title_ author_ publisher_ pub_year max_retries log :
  isbn13_or_none
    (fst (get_isbn13_from_title_author_pub server title_ author_ publisher_ pub_year
            max_retries log)).
Proof. apply cascade_shape. Qed.

Lemma resolver_requests title_ author_ publisher_ pub_year max_retries log :
  exists requests,
    snd (get_isbn13_from_title_author_pub server title_ author_ publisher_ pub_year
           max_retries log) = log ++ requests
    /\ length requests <= 4 * max_retries.
Proof.
  destruct (cascade_requests server title_ author_ publisher_ pub_year max_retries
              (query_combinations title_ author_ publisher_ pub_year) log)
    as (requests & E & _ & Hlen).
  now exists requests.
Qed.

Lemma strip_all_space s : all_space s = true -> Py.strip s = "".
Proof. intros H. unfold Py.strip. now rewrite lstrip_all_space. Qed.

Lemma isbn_cell_shape v : isbn13_or_none v -> isbn_cell_wf (isbn_cell v).
Proof.
  destruct v as [p|]; simpl; intros H; [|right; now left].
  destruct H as [Hlen Hdig]. right. right.
  destruct p; [discriminate | now split].
Qed.

Lemma feature_1_row_wf st row :
  cache_wf st ->
  isbn_cell_wf (fst (feature_1_row server st row))
  /\ cache_wf (snd (feature_1_row server st row)).
Proof.
  intros Hwf. destruct (Py.truthy (cell_text (col1_title row))) eqn:Htitle.
  - destruct (isbn_cache st !! cache_key_of row) as [w|] eqn:E.
    + rewrite (feature_1_row_hit _ _ _ _ Htitle E). split; [|exact Hwf].
      apply isbn_cell_shape, (Hwf _ _ E).
    + rewrite (feature_1_row_miss _ _ _ Htitle E).
      pose proof (resolver_shape (cell_text (col1_title row))
                    (cell_text (col1_author row)) (cell_text (col1_publisher row))
                    (extract_year (col1_pub_year row)) default_max_retries (log1 st))
        as Hshape.
      set (r := get_isbn13_from_title_author_pub _ _ _ _ _ _ _) in *. clearbody r.
      cbv zeta. cbn [fst snd]. split.
      * now apply isbn_cell_shape.
      * intros k v. cbn [isbn_cache]. rewrite lookup_insert. case_decide.
        -- now intros [= <-].
        -- apply Hwf.
  - rewrite (feature_1_row_no_title _ _ _ Htitle). split; [now left | exact Hwf].
Qed.

Lemma feature_1_rows_wf rows st :
  cache_wf st -> Forall isbn_cell_wf (fst (feature_1_rows server st rows)).
Proof.
  revert st. induction rows as [|row rows IH]; intros st Hwf; [constructor|].
  simpl. destruct (feature_1_row_wf st row Hwf) as [Hout Hst].
  destruct (feature_1_row server st row) as [out st'].
  specialize (IH st' Hst). destruct (feature_1_rows server st' rows) as [outs st''].
  now constructor.
Qed.

Lemma feature_1_row_requests st row :
  exists requests,
    log1 (snd (feature_1_row server st row)) = log1 st ++ requests
    /\ length requests <= 4 * default_max_retries.
Proof.
  assert (exists requests, log1 st = log1 st ++ requests
                           /\ length requests <= 4 * default_max_retries) as Hnone
    by (exists []; split; [now rewrite app_nil_r | simpl; lia]).
  destruct (Py.truthy (cell_text (col1_title row))) eqn:Htitle.
  - destruct (isbn_cache st !! cache_key_of row) as [w|] eqn:E.
    + now rewrite (feature_1_row_hit _ _ _ _ Htitle E).
    + rewrite (feature_1_row_miss _ _ _ Htitle E).
      pose proof (resolver_requests (cell_text (col1_title row))
                    (cell_text (col1_author row)) (cell_text (col1_publisher row))
                    (extract_year (col1_pub_year row)) default_max_retries (log1 st))
        as Hreq.
      set (r := get_isbn13_from_title_author_pub _ _ _ _ _ _ _) in *. clearbody r.
      cbv zeta. cbn [fst snd log1]. exact Hreq.
  - now rewrite (feature_1_row_no_title _ _ _ Htitle).
Qed.

Lemma feature_1_rows_requests rows st :
  exists requests,
    log1 (snd (feature_1_rows server st rows)) = log1 st ++ requests
    /\ length requests <= 4 * default_max_retries * length rows.
Proof.
  revert st. induction rows as [|row rows IH]; intros st.
  - exists []. split; [simpl; now rewrite app_nil_r | simpl; lia].
  - simpl feature_1_rows. destruct (feature_1_row_requests st row) as (r1 & E1 & H1).
    destruct (feature_1_row server st row) as [out st']. cbn [snd] in E1.
    destruct (IH st') as (r2 & E2 & H2).
    destruct (feature_1_rows server st' rows) as [outs st'']. cbn [snd] in *.
    exists (r1 ++ r2). rewrite E2, E1, app_assoc, length_app.
    split; [reflexivity|]. cbn [length]. lia.
Qed.

End ConvertFacts.

(** X13.  A row of the convert workflow whose title cell is null or holds
    only white space is marked with the no-title marker; the resolver is not
    called for it: the cache, the request log and the list of resolver calls
    are unchanged. *)
Theorem feature_1_blank_title_skipped (server : Server) (st : Run1) (row : Row1) :
  col1_title row = None \/ (exists s, col1_title row = Some s /\ all_space s = true) ->
  feature_1_row server st row = (no_title, st).
Proof.
  intros H. apply feature_1_row_no_title.
  destruct H as [-> | [s [-> Hs]]]; [reflexivity|].
  simpl. now rewrite strip_all_space.
Qed.

Lemma feature_1_blank_title_skipped_witness :
  feature_1_row (always (Http 200 [other_item]))
    {| isbn_cache := ∅; log1 := []; resolved := [] |} row_blank
  = (no_title, {| isbn_cache := ∅; log1 := []; resolved := [] |}).
Proof.
  apply (feature_1_blank_title_skipped (always (Http 200 [other_item]))
           {| isbn_cache := ∅; log1 := []; resolved := [] |} row_blank).
  right. exists "   ". split; reflexivity.
Defined.

(** X14.  The cache key does not depend on white space around the title,
    author and publisher cells. *)
Theorem cache_key_ignores_padding
    (l1 t r1 l2 a r2 l3 p r3 : string) (year isbn_ isbn' : option string) :
  all_space l1 = true -> all_space r1 = true ->
  all_space l2 = true -> all_space r2 = true ->
  all_space l3 = true -> all_space r3 = true ->
  cache_key_of (mkRow1 (Some (l1 +:+ t +:+ r1)) (Some (l2 +:+ a +:+ r2))
                  (Some (l3 +:+ p +:+ r3)) year isbn_)
  = cache_key_of (mkRow1 (Some t) (Some a) (Some p) year isbn').
Proof.
  intros Hl1 Hr1 Hl2 Hr2 Hl3 Hr3. unfold cache_key_of. simpl.
  now rewrite !strip_padding.
Qed.

Lemma cache_key_ignores_padding_witness :
  cache_key_of row_padded = cache_key_of row_plain.
Proof.
  exact (cache_key_ignores_padding "  " "Foo" " " " " "Kim" "" "" "Pub" "  "
           (Some "2021") None (Some "x")
           eq_refl eq_refl eq_refl eq_refl eq_refl eq_refl).
Defined.

(** X15.  When the [isbn] fields of the items the server returns are ASCII,
    every cell that a run of the convert workflow writes to the ISBN column is
    the no-title marker, the not-found marker, or a string of exactly thirteen
    decimal digits; one cell is written per row. *)
Theorem run_feature_1_cells_wellformed
    (server : Server) (log : list string) (rows : list Row1) :
  ascii_isbns server ->
  Forall isbn_cell_wf (fst (run_feature_1 server log rows))
  /\ length (fst (run_feature_1 server log rows)) = length rows.
Proof.
  intros _. split; [|apply feature_1_rows_length].
  apply feature_1_rows_wf. intros k v H. simpl in H.
  rewrite lookup_empty in H. discriminate.
Qed.

Lemma run_feature_1_cells_wellformed_witness :
  Forall isbn_cell_wf
    (fst (run_feature_1 (always (Http 200 [other_item])) [] [row_a; row_blank]))
  /\ length (fst (run_feature_1 (always (Http 200 [other_item])) [] [row_a; row_blank]))
     = length [row_a; row_blank].
Proof.
  exact (run_feature_1_cells_wellformed (always (Http 200 [other_item])) []
           [row_a; row_blank] (ascii_isbns_always 200 [other_item] eq_refl)).
Defined.

(** X16.  The convert workflow only appends to the request log, and sends at
    most [4 * max_retries] (20) requests for each row, whatever the state in
    which the row is reached; a run therefore sends at most 20 requests times
    the number of its rows. *)
Theorem run_feature_1_requests_bounded
    (server : Server) (log : list string) (rows : list Row1) :
  (forall (st : Run1) (row : Row1),
      exists requests,
        log1 (snd (feature_1_row server st row)) = log1 st ++ requests
        /\ length requests <= 4 * default_max_retries)
  /\ exists requests,
       log1 (snd (run_feature_1 server log rows)) = log ++ requests
       /\ length requests <= 4 * default_max_retries * length rows.
Proof.
  split; [apply feature_1_row_requests | apply (feature_1_rows_requests server rows)].
Qed.

(** ** The verify workflow, again *)

Section VerifyFacts.

Variable server : Server.

Lemma book_info_loop_no_result u r max_retries log :
  r < max_retries ->
  throttled server log u r = true ->
  no_result (server (log ++ repeat u r) u) = true ->
  book_info_loop server u max_retries log = (None, log ++ repeat u (S r)).
Proof.
  intros Hr Hthrottled Hnone.
  replace max_retries with (r + S (max_retries - S r)) by lia.
  rewrite book_info_loop_throttled by exact Hthrottled.
  rewrite book_info_loop_S, log_repeat_snoc.
  destruct (server (log ++ repeat u r) u) as [code items|]; [|reflexivity].
  simpl in Hnone. destruct (code =? 200).
  - now destruct items.
  - apply negb_true_iff in Hnone. now rewrite Hnone.
Qed.

Lemma get_book_info_hit st isbn13 book_info :
  book_cache st !! isbn13 = Some book_info ->
  get_book_info_by_isbn13 server st isbn13 = (book_info, st).
Proof. intros H. unfold get_book_info_by_isbn13. now rewrite H. Qed.

Lemma get_book_info_miss st isbn13 :
  book_cache st !! isbn13 = None ->
  get_book_info_by_isbn13 server st isbn13
  = let r := get_book_info_by_isbn13_body server isbn13 default_max_retries (log2 st) in
    (fst r, {| book_cache := <[isbn13 := fst r]> (book_cache st); log2 := snd r |}).
Proof.
  intros H. unfold get_book_info_by_isbn13. rewrite H.
  now destruct (get_book_info_by_isbn13_body _ _ _ _).
Qed.

Lemma get_book_info_stores st isbn13 :
  is_Some (book_cache (snd (get_book_info_by_isbn13 server st isbn13)) !! isbn13).
Proof.
  destruct (book_cache st !! isbn13) as [v|] eqn:E.
  - rewrite (get_book_info_hit _ _ _ E). now exists v.
  - rewrite (get_book_info_miss _ _ E). cbv zeta. cbn [snd book_cache].
    eexists. apply lookup_insert_eq.
Qed.

Lemma get_book_info_keeps st isbn13 k v :
  book_cache st !! k = Some v ->
  book_cache (snd (get_book_info_by_isbn13 server st isbn13)) !! k = Some v.
Proof.
  intros Hk. destruct (book_cache st !! isbn13) as [w|] eqn:E.
  - now rewrite (get_book_info_hit _ _ _ E).
  - rewrite (get_book_info_miss _ _ E). cbv zeta. cbn [snd book_cache].
    rewrite lookup_insert_ne; [exact Hk | congruence].
Qed.

Lemma get_book_info_requests st isbn13 :
  exists k,
    k <= default_max_retries
    /\ log2 (snd (get_book_info_by_isbn13 server st isbn13))
       = log2 st ++ repeat (isbn_url isbn13) k.
Proof.
  destruct (book_cache st !! isbn13) as [w|] eqn:E.
  - rewrite (get_book_info_hit _ _ _ E). exists 0.
    split; [lia | simpl; now rewrite app_nil_r].
  - rewrite (get_book_info_miss _ _ E). cbv zeta. cbn [snd log2].
    apply book_info_loop_requests.
Qed.

(** The state after a row is the state after its lookup, if it makes one. *)
Lemma feature_2_row_state st row :
  snd (feature_2_row server st row)
  = if negb (Py.truthy (cell_text (col2_isbn13 row)))
       || (String.length (cell_text (col2_isbn13 row)) <? 13)
    then st
    else snd (get_book_info_by_isbn13 server st (cell_text (col2_isbn13 row))).
Proof.
  unfold feature_2_row.
  destruct (negb (Py.truthy (cell_text (col2_isbn13 row)))
            || (String.length (cell_text (col2_isbn13 row)) <? 13)); [reflexivity|].
  destruct (get_book_info_by_isbn13 server st (cell_text (col2_isbn13 row))) as [[b|] st'];
    reflexivity.
Qed.

Lemma feature_2_row_keeps st row k v :
  book_cache st !! k = Some v ->
  book_cache (snd (feature_2_row server st row)) !! k = Some v.
Proof.
  intros Hk. rewrite feature_2_row_state.
  destruct (_ || _); [exact Hk | now apply get_book_info_keeps].
Qed.

Lemma feature_2_rows_keeps rows st k v :
  book_cache st !! k = Some v ->
  book_cache (snd (feature_2_rows server st rows)) !! k = Some v.
Proof.
  revert st. induction rows as [|row rows IH]; intros st Hk; [exact Hk|].
  simpl. pose proof (feature_2_row_keeps st row k v Hk) as H.
  destruct (feature_2_row server st row) as [out st'].
  specialize (IH st' H). now destruct (feature_2_rows server st' rows).
Qed.

Lemma feature_2_rows_snd_app rows1 rows2 st :
  snd (feature_2_rows server st (rows1 ++ rows2))
  = snd (feature_2_rows server (snd (feature_2_rows server st rows1)) rows2).
Proof.
  revert st. induction rows1 as [|row rows1 IH]; intros st; [reflexivity|].
  simpl. destruct (feature_2_row server st row) as [out st'].
  specialize (IH st'). destruct (feature_2_rows server st' (rows1 ++ rows2)).
  destruct (feature_2_rows server st' rows1). exact IH.
Qed.

Lemma feature_2_rows_cons_snd row rows st :
  snd (feature_2_rows server st (row :: rows))
  = snd (feature_2_rows server (snd (feature_2_row server st row)) rows).
Proof.
  simpl. destruct (feature_2_row server st row) as [out st']. cbn [snd].
  now destruct (feature_2_rows server st' rows).
Qed.

End VerifyFacts.

(** X17.  In the verify workflow, a row with a usable ISBN13 whose lookup is
    not in the memo table and ends (after fewer than the maximum number of
    rate-limited attempts) with a hard failure or with zero items gets the
    search-failed verdict with the note 검색 결과 없음; the failure is stored in
    the memo table under that identifier. *)
Theorem verify_no_result_is_search_failed
    (server : Server) (st : Run2) (row : Row2) (r : nat) :
  negb (Py.truthy (cell_text (col2_isbn13 row)))
  || (String.length (cell_text (col2_isbn13 row)) <? 13) = false ->
  book_cache st !! cell_text (col2_isbn13 row) = None ->
  r < default_max_retries ->
  throttled server (log2 st) (isbn_url (cell_text (col2_isbn13 row))) r = true ->
  no_result (server (log2 st ++ repeat (isbn_url (cell_text (col2_isbn13 row))) r)
               (isbn_url (cell_text (col2_isbn13 row)))) = true ->
  feature_2_row server st row
  = ((verdict_search_failed, note_no_result),
     {| book_cache := <[cell_text (col2_isbn13 row) := None]> (book_cache st);
        log2 := log2 st ++ repeat (isbn_url (cell_text (col2_isbn13 row))) (S r) |}).
Proof.
  intros Hvalid Hmiss Hr Hthrottled Hnone. unfold feature_2_row.
  rewrite Hvalid, (get_book_info_miss server st _ Hmiss).
  unfold get_book_info_by_isbn13_body.
  now rewrite (book_info_loop_no_result server _ r _ _ Hr Hthrottled Hnone).
Qed.

Lemma verify_no_result_is_search_failed_witness :
  feature_2_row failing_server fresh row_foo
  = ((verdict_search_failed, note_no_result),
     {| book_cache := <[cell_text (col2_isbn13 row_foo) := None]> (book_cache fresh);
        log2 := log2 fresh ++ repeat (isbn_url (cell_text (col2_isbn13 row_foo))) 1 |}).
Proof.
  exact (verify_no_result_is_search_failed failing_server fresh row_foo 0
           eq_refl eq_refl (Nat.lt_0_succ 4) eq_refl eq_refl).
Defined.

(** X18.  In the verify workflow, a row whose trimmed ISBN13 equals that of
    an earlier row of the run causes no request and leaves the memo table as
    it is: the record fetched (or the failure met) for the earlier row is
    used again. *)
Theorem verify_repeated_isbn13_no_request
    (server : Server) (st : Run2) (before : list Row2) (row1 : Row2)
    (between : list Row2) (row2 : Row2) :
  cell_text (col2_isbn13 row1) = cell_text (col2_isbn13 row2) ->
  snd (feature_2_row server
         (snd (run_feature_2 server st (before ++ row1 :: between))) row2)
  = snd (run_feature_2 server st (before ++ row1 :: between)).
Proof.
  intros Hsame. unfold run_feature_2.
  rewrite feature_2_rows_snd_app, feature_2_rows_cons_snd.
  set (st0 := snd (feature_2_rows server st before)).
  rewrite (feature_2_row_state server _ row2), <- Hsame.
  destruct (negb (Py.truthy (cell_text (col2_isbn13 row1)))
            || (String.length (cell_text (col2_isbn13 row1)) <? 13)) eqn:Hvalid;
    [reflexivity|].
  assert (is_Some (book_cache (snd (feature_2_row server st0 row1))
                     !! cell_text (col2_isbn13 row1))) as [v Hv].
  { rewrite feature_2_row_state, Hvalid. apply get_book_info_stores. }
  now rewrite (get_book_info_hit server _ _ v
                 (feature_2_rows_keeps server between _ _ _ Hv)).
Qed.

Lemma verify_repeated_isbn13_no_request_witness :
  snd (feature_2_row (always (Http 200 [item_foo_bar]))
         (snd (run_feature_2 (always (Http 200 [item_foo_bar])) fresh
                 ([] ++ row_foo :: [])))
         row_same_isbn13)
  = snd (run_feature_2 (always (Http 200 [item_foo_bar])) fresh ([] ++ row_foo :: [])).
Proof.
  exact (verify_repeated_isbn13_no_request (always (Http 200 [item_foo_bar])) fresh
           [] row_foo [] row_same_isbn13 eq_refl).
Defined.

Lemma flagged_labels_not_empty (f1 f2 f3 f4 f5 : bool) :
  let flagged :=
    map fst (List.filter (fun field : string * bool => snd field)
               [(label_title, f1); (label_author, f2); (label_publisher, f3);
                (label_year, f4); (label_price, f5)]) in
  flagged = [] \/ join "," flagged <> "".
Proof.
  destruct f1, f2, f3, f4, f5; cbv zeta; simpl;
    solve [now left | right; vm_compute; discriminate].
Qed.

(** X19.  For every row of the verify workflow the verdict is one of the four
    labels (cannot search, search failed, match, mismatch), and the column of
    mismatched items is empty exactly when the verdict is the match label. *)
Theorem verdict_column_empty_iff_match (server : Server) (st : Run2) (row : Row2) :
  (fst (fst (feature_2_row server st row)) = verdict_cannot_search
   \/ fst (fst (feature_2_row server st row)) = verdict_search_failed
   \/ fst (fst (feature_2_row server st row)) = verdict_match
   \/ fst (fst (feature_2_row server st row)) = verdict_mismatch)
  /\ (snd (fst (feature_2_row server st row)) = ""
      <-> fst (fst (feature_2_row server st row)) = verdict_match).
Proof.
  unfold feature_2_row.
  destruct (negb (Py.truthy (cell_text (col2_isbn13 row)))
            || (String.length (cell_text (col2_isbn13 row)) <? 13)).
  { cbn [fst snd]. split; [now left|]. split; intros H; vm_compute in H; discriminate. }
  destruct (get_book_info_by_isbn13 server st (cell_text (col2_isbn13 row)))
    as [[book_info|] st'].
  - rewrite verdict_of_cases, mismatch_list_of_fields. unfold compared_fields.
    match goal with
    | |- context [List.filter _ [(_, ?f1); (_, ?f2); (_, ?f3); (_, ?f4); (_, ?f5)]] =>
        pose proof (flagged_labels_not_empty f1 f2 f3 f4 f5) as H;
        cbv zeta in H;
        destruct (map fst (List.filter (fun field : string * bool => snd field)
                             [(label_title, f1); (label_author, f2); (label_publisher, f3);
                              (label_year, f4); (label_price, f5)])) as [|x l]
    end.
    + cbn [fst snd]. split; [right; right; now left | now split].
    + cbn [fst snd]. split; [now repeat right|].
      destruct H as [H | H]; [discriminate|]. split; intros E.
      * contradiction.
      * vm_compute in E. discriminate.
  - cbn [fst snd]. split; [right; now left|].
    split; intros H; vm_compute in H; discriminate.
Qed.

(** X20.  A row of the verify workflow whose title, author and publisher are
    empty or equal to the fetched ones up to letter case, whose year is absent
    or equal to the fetched year, and whose price is empty or equal to the
    fetched price, gets the match verdict with an empty column of mismatched
    items. *)
Theorem verify_agreeing_record_matches
    (server : Server) (st : Run2) (row : Row2) (book_info : BookInfo) (st' : Run2) :
  negb (Py.truthy (cell_text (col2_isbn13 row)))
  || (String.length (cell_text (col2_isbn13 row)) <? 13) = false ->
  get_book_info_by_isbn13 server st (cell_text (col2_isbn13 row)) = (Some book_info, st') ->
  (cell_text (col2_title row) = ""
   \/ Py.lower (cell_text (col2_title row)) = Py.lower (bi_title book_info)) ->
  (cell_text (col2_author row) = ""
   \/ Py.lower (cell_text (col2_author row)) = Py.lower (bi_author book_info)) ->
  (cell_text (col2_publisher row) = ""
   \/ Py.lower (cell_text (col2_publisher row)) = Py.lower (bi_publisher book_info)) ->
  (extract_year (Some (cell_text (col2_pubdate row))) = ""
   \/ extract_year (Some (cell_text (col2_pubdate row)))
      = extract_year (Some (bi_pubdate book_info))) ->
  (cell_text (col2_price row) = "" \/ cell_text (col2_price row) = bi_price book_info) ->
  feature_2_row server st row = ((verdict_match, ""), st').
Proof.
  intros Hvalid Hfetch Htitle Hauthor Hpublisher Hyear Hprice.
  unfold feature_2_row. rewrite Hvalid, Hfetch.
  rewrite verdict_of_cases, mismatch_list_of_fields. unfold compared_fields, contains_either.
  assert (forall o api, o = "" \/ Py.lower o = Py.lower api ->
            Py.truthy (Py.lower o)
            && negb (Py.contains (Py.lower o) (Py.lower api)
                     || Py.contains (Py.lower api) (Py.lower o)) = false) as Hfield.
  { intros o api [-> | ->]; [reflexivity|].
    rewrite contains_refl. apply andb_false_r. }
  assert (forall o api, o = "" \/ o = api ->
            Py.truthy o && negb (String.eqb o api) = false) as Hexact.
  { intros o api [-> | ->]; [reflexivity|].
    rewrite String.eqb_refl. apply andb_false_r. }
  now rewrite !Hfield, !Hexact by assumption.
Qed.

Lemma verify_agreeing_record_matches_witness :
  feature_2_row (always (Http 200 [padded_item])) fresh matching_row
  = ((verdict_match, ""),
     snd (get_book_info_by_isbn13 (always (Http 200 [padded_item])) fresh "9788901234567")).
Proof.
  apply (verify_agreeing_record_matches (always (Http 200 [padded_item])) fresh matching_row
           (book_info_of_item padded_item)
           (snd (get_book_info_by_isbn13 (always (Http 200 [padded_item])) fresh
                   "9788901234567")));
    solve [reflexivity | right; reflexivity].
Defined.

(** X21.  A row of the verify workflow causes at most one lookup: it sends at
    most [max_retries] requests, all for the URL of its trimmed ISBN13, and
    only appends them to the request log. *)
Theorem verify_row_requests_bounded (server : Server) (st : Run2) (row : Row2) :
  exists k,
    k <= default_max_retries
    /\ log2 (snd (feature_2_row server st row))
       = log2 st ++ repeat (isbn_url (cell_text (col2_isbn13 row))) k.
Proof.
  rewrite feature_2_row_state.
  destruct (_ || _); [|apply get_book_info_requests].
  exists 0. split; [lia | simpl; now rewrite app_nil_r].
Qed.

(** ** The required columns *)

Lemma first_missing_spec (required_columns columns : list string) :
  match first_missing required_columns columns with
  | Some col =>
      exists before after,
        required_columns = before ++ col :: after
        /\ (forall c, In c before -> In c columns)
        /\ ~ In col columns
  | None => forall c, In c required_columns -> In c columns
  end.
Proof.
  assert (forall c, existsb (String.eqb c) columns = true <-> In c columns) as Hin.
  { intros c. rewrite existsb_exists. split.
    - intros [x [Hx E]]. apply String.eqb_eq in E. now subst x.
    - intros H. exists c. split; [exact H | apply String.eqb_refl]. }
  unfold first_missing.
  destruct (List.find _ required_columns) as [col|] eqn:E.
  - apply find_first in E as [Hcol (before & after & -> & Hbefore)].
    exists before, after. split; [reflexivity|]. split.
    + intros c Hc. rewrite forallb_forall in Hbefore. specialize (Hbefore c Hc).
      rewrite negb_involutive in Hbefore. now apply Hin.
    + intros H. apply Hin in H. rewrite H in Hcol. discriminate.
  - intros c Hc. pose proof (find_none _ _ E c Hc) as H.
    apply negb_false_iff in H. now apply Hin.
Qed.

(** X22.  The convert page checks the five required columns before it reads
    any row: when one of them is absent from the uploaded table it reports the
    first absent one, in the order 도서명, 저자, 출판사, 출간연도, ISBN, and
    sends no request; only when all are present does it process the rows. *)
Theorem convert_page_checks_columns
    (server : Server) (log : list string) (columns : list string) (rows : list Row1) :
  ((forall c, In c required_columns_1 -> In c columns)
   /\ feature_1_page server log (Some (columns, rows))
      = (Completed (fst (run_feature_1 server log rows)),
         log1 (snd (run_feature_1 server log rows))))
  \/ (exists before col after,
        required_columns_1 = before ++ col :: after
        /\ (forall c, In c before -> In c columns)
        /\ ~ In col columns
        /\ feature_1_page server log (Some (columns, rows))
           = (MissingColumn (missing_message col), log)).
Proof.
  unfold feature_1_page. pose proof (first_missing_spec required_columns_1 columns) as H.
  destruct (first_missing required_columns_1 columns) as [col|].
  - right. destruct H as (before & after & E & Hbefore & Hcol).
    now exists before, col, after.
  - left. split; [exact H|]. now destruct (run_feature_1 server log rows).
Qed.

(** X23.  The verify page checks the seven required columns before it reads
    any row: when one of them is absent from the uploaded table it reports the
    first absent one, in the order ISBN10, ISBN13, 도서명, 출간일, 출판사, 저자,
    정가, and makes no lookup; only when all are present does it process the
    rows. *)
Theorem verify_page_checks_columns
    (server : Server) (st : Run2) (columns : list string) (rows : list Row2) :
  ((forall c, In c required_columns_2 -> In c columns)
   /\ feature_2_page server st (Some (columns, rows))
      = (Completed (fst (run_feature_2 server st rows)),
         snd (run_feature_2 server st rows)))
  \/ (exists before col after,
        required_columns_2 = before ++ col :: after
        /\ (forall c, In c before -> In c columns)
        /\ ~ In col columns
        /\ feature_2_page server st (Some (columns, rows))
           = (MissingColumn (missing_message col), st)).
Proof.
  unfold feature_2_page. pose proof (first_missing_spec required_columns_2 columns) as H.
  destruct (first_missing required_columns_2 columns) as [col|].
  - right. destruct H as (before & after & E & Hbefore & Hcol).
    now exists before, col, after.
  - left. split; [exact H|]. now destruct (run_feature_2 server st rows).
Qed.

Example convert_page_without_author :
  feature_1_page busy_server [] (Some (["도서명"; "출판사"; "ISBN"], [row_plain]))
  = (MissingColumn (missing_message "저자"), []).
Proof. reflexivity. Qed.

(** ** Where a resolved identifier comes from *)

Section ProvenanceFacts.

Variable server : Server.
Variables title_ author_ publisher_ pub_year : string.




End ProvenanceFacts.



(** ** The request URLs *)

Section UrlFacts.

Implicit Types s t q : string.

Lemma nat_of_ascii_lt c : nat_of_ascii c < 256.
Proof. apply nat_ascii_bounded. Qed.

Lemma hex_digit_code n :
  n < 16 -> nat_of_ascii (Py.hex_digit n) = if n <? 10 then 48 + n else 55 + n.
Proof.
  intros Hn. unfold Py.hex_digit.
  destruct (n <? 10) eqn:E; apply nat_ascii_embedding.
  - apply Nat.ltb_lt in E. lia.
  - lia.
Qed.

Lemma hex_digit_unreserved n : n < 16 -> Py.is_unreserved (Py.hex_digit n) = true.
Proof.
  intros Hn. unfold Py.is_unreserved, Py.is_digit. rewrite (hex_digit_code n Hn).
  destruct (n <? 10) eqn:E.
  - apply Nat.ltb_lt in E.
    assert ((48 <=? 48 + n) && (48 + n <=? 57) = true) as ->
      by (apply andb_true_iff; split; apply Nat.leb_le; lia).
    now rewrite !orb_true_r.
  - apply Nat.ltb_ge in E.
    assert ((65 <=? 55 + n) && (55 + n <=? 90) = true) as ->
      by (apply andb_true_iff; split; apply Nat.leb_le; lia).
    reflexivity.
Qed.

Lemma hex_digit_inj m n : m < 16 -> n < 16 -> Py.hex_digit m = Py.hex_digit n -> m = n.
Proof.
  intros Hm Hn E. apply (f_equal nat_of_ascii) in E.
  rewrite (hex_digit_code m Hm), (hex_digit_code n Hn) in E.
  destruct (m <? 10) eqn:Em, (n <? 10) eqn:En;
    rewrite ?Nat.ltb_lt, ?Nat.ltb_ge in *; lia.
Qed.

Lemma quote_cons c s :
  Py.quote (String c s)
  = if Py.is_unreserved c then String c (Py.quote s)
    else String "%" (String (Py.hex_digit (nat_of_ascii c / 16))
                       (String (Py.hex_digit (nat_of_ascii c mod 16)) (Py.quote s))).
Proof. reflexivity. Qed.

Lemma url_char_hex n : n < 16 -> url_char (Py.hex_digit n) = true.
Proof. intros Hn. unfold url_char. now rewrite hex_digit_unreserved. Qed.

Lemma quote_url_safe s : url_safe (Py.quote s) = true.
Proof.
  induction s as [|c s IH]; [reflexivity|]. rewrite quote_cons.
  pose proof (nat_of_ascii_lt c) as Hc.
  destruct (Py.is_unreserved c) eqn:E; cbn [url_safe].
  - unfold url_char. now rewrite E, IH.
  - change (url_char "%") with true. rewrite !url_char_hex, IH; [reflexivity | |].
    + apply Nat.mod_upper_bound. lia.
    + apply Nat.Div0.div_lt_upper_bound. lia.
Qed.

Lemma quote_inj s t : Py.quote s = Py.quote t -> s = t.
Proof.
  revert t. induction s as [|c s IH]; intros [|d t].
  - reflexivity.
  - rewrite quote_cons. simpl. destruct (Py.is_unreserved d); discriminate.
  - rewrite quote_cons. simpl. destruct (Py.is_unreserved c); discriminate.
  - rewrite !quote_cons.
    pose proof (nat_of_ascii_lt c) as Hc. pose proof (nat_of_ascii_lt d) as Hd.
    destruct (Py.is_unreserved c) eqn:Ec, (Py.is_unreserved d) eqn:Ed.
    + intros [= -> H]. now rewrite (IH t H).
    + intros [= -> _]. discriminate.
    + intros [= <- _]. discriminate.
    + assert (forall x, x < 256 ->
                x / 16 < 16 /\ x mod 16 < 16 /\ x = 16 * (x / 16) + x mod 16) as Hdm.
      { intros x Hx. split; [apply Nat.Div0.div_lt_upper_bound; lia|].
        split; [apply Nat.mod_upper_bound; lia | apply Nat.div_mod_eq]. }
      destruct (Hdm _ Hc) as (Hc1 & Hc2 & Hc3). destruct (Hdm _ Hd) as (Hd1 & Hd2 & Hd3).
      remember (nat_of_ascii c / 16) as ch. remember (nat_of_ascii c mod 16) as cl.
      remember (nat_of_ascii d / 16) as dh. remember (nat_of_ascii d mod 16) as dl.
      intros [= Hhi Hlo H]. rewrite (IH t H). f_equal.
      apply hex_digit_inj in Hhi; [|assumption..].
      apply hex_digit_inj in Hlo; [|assumption..].
      rewrite <- (ascii_nat_embedding c), <- (ascii_nat_embedding d). f_equal. lia.
Qed.

Lemma append_inj_l s t u : s +:+ t = s +:+ u -> t = u.
Proof.
  induction s as [|c s IH]; [now rewrite !append_nil|].
  rewrite !append_cons. intros [= H]. now apply IH.
Qed.

Lemma append_inj_r s t u : s +:+ u = t +:+ u -> s = t.
Proof.
  revert t. induction s as [|c s IH]; intros [|d t] H.
  - reflexivity.
  - apply (f_equal String.length) in H. rewrite !append_length in H. simpl in H. lia.
  - apply (f_equal String.length) in H. rewrite !append_length in H. simpl in H. lia.
  - rewrite !append_cons in H. injection H as -> H. now rewrite (IH t H).
Qed.

End UrlFacts.

(** X25.  The query is percent-encoded into the URL of a search request: the
    encoded query holds only letters, digits, the characters [_ . - ~ /] and
    percent escapes, so no character of a title, author or publisher can end
    the [query] parameter or start another one; and two different queries are
    never sent as the same URL. *)
Theorem search_url_encodes_query (query query' : string) :
  url_safe (Py.quote query) = true
  /\ search_url query = url +:+ "?query=" +:+ Py.quote query +:+ "&display=5"
  /\ (search_url query = search_url query' <-> query = query').
Proof.
  split; [apply quote_url_safe|]. split; [reflexivity|]. split.
  - unfold search_url. intros H. apply append_inj_l, append_inj_l, append_inj_r in H.
    now apply quote_inj.
  - now intros ->.
Qed.
